(** * page-generator.py: template substitution with optional sampling

    A shallow embedding of [examples/python-packages/page-generator.py]
    and the properties of its three functions [get_data], [sample_data]
    and [generate_page].

    Modelling choices.
    - A text file is the [string] Python's text layer presents; a file
      system is a finite map from paths to texts.
    - Open file objects live in a table of the world, indexed by
      descriptors.  A file object leaves the table only through
      [close()] or through the exit of a [with] block: finalisers run at
      no guaranteed time and are not part of the model.
    - A write is unbuffered and either appends its whole argument or
      fails; the device fails once its budget of writes is used up.
    - [random.sample] is an oracle: the world carries the outcomes of
      the calls to come.  Its argument check is modelled, its choice of
      indices is constrained by [valid_sample] where a property needs it.
    - A generator is a suspended body, a tree of commands and yields that
      its consumer advances.
    - A [for] loop over a file sees the lines the file holds when the
      loop starts.  The properties of [generate_page] are stated for an
      output path that is neither the template nor the data file. *)

From Stdlib Require Import ZArith Lia Sorted.
From stdpp Require Import base option list gmap strings sorting.

Local Open Scope Z_scope.
Local Open Scope string_scope.

(** ** Text *)

(** The line feed, Python's ['\n']. *)
Definition LF : Ascii.ascii := Ascii.ascii_of_nat 10.

(** The lines that iterating a text file yields: each keeps its
    terminator, the last one may lack it. *)
Fixpoint splitlines (s : string) : list string :=
  match s with
  | EmptyString => []
  | String c s' =>
      if Ascii.eqb c LF then String c EmptyString :: splitlines s'
      else match splitlines s' with
           | [] => [String c EmptyString]
           | l :: ls => String c l :: ls
           end
  end.

(** Concatenation of the strings handed to a writer. *)
Definition join (ls : list string) : string :=
  foldr String.append EmptyString ls.

(** [needle in hay] on Python strings. *)
Fixpoint contains (needle hay : string) : bool :=
  String.prefix needle hay ||
  match hay with
  | EmptyString => false
  | String _ hay' => contains needle hay'
  end.

(** ** Module constants *)

Definition data_filename : string := "python-packages-data.txt".
Definition template_filename : string := "python-packages-template.html".
Definition num_packages : Z := 299594.

(** The marker of line 28. *)
Definition marker : string := "DATA".

(** ** The world: files, open file objects, faults and randomness *)

Inductive mode := ModeR | ModeW.

Record handle := Handle { h_path : string; h_mode : mode }.

(** The exceptions the script can meet.  [FileNotFoundError] is the
    spec's MissingFile, [OSError] its WriteFailure and [ValueError]
    its InvalidArgument. *)
Inductive exn :=
| FileNotFoundError
| OSError
| ValueError
| UnsupportedOperation.

Inductive result (A : Type) :=
| Ok (a : A)
| Err (e : exn).
Arguments Ok {A} a.
Arguments Err {A} e.

Record world := World {
  files : gmap string string;
  readonly : gset string;
  handles : gmap nat handle;
  writes_left : option nat;
  entropy : list (list Z);
}.

Definition set_files (f : gmap string string) (w : world) : world :=
  World f (readonly w) (handles w) (writes_left w) (entropy w).
Definition set_handles (h : gmap nat handle) (w : world) : world :=
  World (files w) (readonly w) h (writes_left w) (entropy w).
Definition set_writes_left (q : option nat) (w : world) : world :=
  World (files w) (readonly w) (handles w) q (entropy w).
Definition set_entropy (e : list (list Z)) (w : world) : world :=
  World (files w) (readonly w) (handles w) (writes_left w) e.

(** ** Commands *)

Inductive cmd :=
| c_open (path : string) (m : mode)
| c_readlines (fd : nat)
| c_write (fd : nat) (s : string)
| c_close (fd : nat)
| c_random_sample (n k : Z).

Definition resp (c : cmd) : Type :=
  match c with
  | c_open _ _ => nat
  | c_readlines _ => list string
  | c_write _ _ => unit
  | c_close _ => unit
  | c_random_sample _ _ => list Z
  end.

(** [open(path, 'r')] and [open(path, 'w')]: reading needs the file,
    writing creates or truncates it. *)
Definition do_open (path : string) (m : mode) (w : world)
  : result nat * world :=
  let fd := fresh (dom (handles w)) in
  match m with
  | ModeR =>
      match files w !! path with
      | Some _ => (Ok fd, set_handles (<[fd := Handle path ModeR]> (handles w)) w)
      | None => (Err FileNotFoundError, w)
      end
  | ModeW =>
      if decide (path ∈ readonly w) then (Err OSError, w)
      else (Ok fd,
            set_handles (<[fd := Handle path ModeW]> (handles w))
              (set_files (<[path := EmptyString]> (files w)) w))
  end.

(** The lines a [for line in f] loop sees. *)
Definition do_readlines (fd : nat) (w : world)
  : result (list string) * world :=
  match handles w !! fd with
  | Some (Handle path ModeR) =>
      match files w !! path with
      | Some text => (Ok (splitlines text), w)
      | None => (Ok [], w)
      end
  | Some (Handle _ ModeW) => (Err UnsupportedOperation, w)
  | None => (Err ValueError, w)
  end.

(** [f.write(s)]. *)
Definition do_write (fd : nat) (s : string) (w : world)
  : result unit * world :=
  match handles w !! fd with
  | Some (Handle path ModeW) =>
      match writes_left w with
      | Some O => (Err OSError, w)
      | q =>
          (Ok tt,
           set_writes_left (Nat.pred <$> q)
             (set_files (<[path := default EmptyString (files w !! path) +:+ s]>
                           (files w)) w))
      end
  | Some (Handle _ ModeR) => (Err UnsupportedOperation, w)
  | None => (Err ValueError, w)
  end.

(** [f.close()], also what leaving a [with] block does. *)
Definition do_close (fd : nat) (w : world) : result unit * world :=
  (Ok tt, set_handles (delete fd (handles w)) w).

(** [random.sample(range(n), k)]: the argument check of the library,
    then the next outcome of the oracle. *)
Definition do_random_sample (n k : Z) (w : world)
  : result (list Z) * world :=
  if decide (0 <= k <= n)
  then (Ok (hd [] (entropy w)), set_entropy (tl (entropy w)) w)
  else (Err ValueError, w).

Definition exec (c : cmd) : world -> result (resp c) * world :=
  match c with
  | c_open path m => do_open path m
  | c_readlines fd => do_readlines fd
  | c_write fd s => do_write fd s
  | c_close fd => do_close fd
  | c_random_sample n k => do_random_sample n k
  end.

(** ** Procedures: state and exceptions *)

Definition M (A : Type) : Type := world -> result A * world.

Definition ret {A} (a : A) : M A := fun w => (Ok a, w).

Definition bind {A B} (m : M A) (f : A -> M B) : M B :=
  fun w =>
    match m w with
    | (Ok a, w') => f a w'
    | (Err e, w') => (Err e, w')
    end.

Declare Scope prog_scope.
Delimit Scope prog_scope with prog.
Notation "x <- m ;; k" := (bind m (fun x => k))
  (at level 100, m at next level, k at level 200, right associativity)
  : prog_scope.
Notation "m ;; k" := (bind m (fun _ => k))
  (at level 100, k at level 200, right associativity) : prog_scope.
Local Open Scope prog_scope.

(** [with open(path, m) as f: body]: the file object is closed when the
    block is left, whether [body] returned or raised. *)
Definition with_open {A} (path : string) (m : mode) (body : nat -> M A) : M A :=
  fun w =>
    match do_open path m w with
    | (Ok f, w1) =>
        let '(r, w2) := body f w1 in
        let '(_, w3) := do_close f w2 in
        (r, w3)
    | (Err e, w1) => (Err e, w1)
    end.

(** [for x in xs: body] over a list. *)
Fixpoint for_each {X} (xs : list X) (body : X -> M unit) : M unit :=
  match xs with
  | [] => ret tt
  | x :: xs' => body x ;; for_each xs' body
  end.

(** [for line in f: body] over an open text file. *)
Definition for_line_in (f : nat) (body : string -> M unit) : M unit :=
  lines <- do_readlines f ;; for_each lines body.

(** ** Generators *)

(** A suspended generator body: it has returned, it is at a [yield], or
    its next step is a command. *)
Inductive gen :=
| Stop
| Yield (line : string) (k : gen)
| Do (c : cmd) (k : resp c -> gen).

(** Calling a generator function runs none of its body: the call
    returns the suspended body. *)
Definition call_generator (body : gen) : M gen := ret body.

(** [next(g)]: run the body up to its next [yield]; [None] is
    StopIteration. *)
Fixpoint next (g : gen) : M (option (string * gen)) :=
  match g with
  | Stop => ret None
  | Yield line k => ret (Some (line, k))
  | Do c k => fun w =>
      match exec c w with
      | (Ok r, w') => next (k r) w'
      | (Err e, w') => (Err e, w')
      end
  end.

(** [list(g)]: everything the generator yields. *)
Fixpoint collect (g : gen) : M (list string) :=
  match g with
  | Stop => ret []
  | Yield line k => ls <- collect k ;; ret (line :: ls)
  | Do c k => r <- exec c ;; collect (k r)
  end.

(** [writer.writelines(g)]: each line is written as soon as the
    generator yields it. *)
Fixpoint writelines (writer : nat) (g : gen) : M unit :=
  match g with
  | Stop => ret tt
  | Yield line k => do_write writer line ;; writelines writer k
  | Do c k => r <- exec c ;; writelines writer (k r)
  end.

(** ** The script *)

(** Lines 8-12. *)
Definition get_data : gen :=
  Do (c_open data_filename ModeR) (fun reader =>
  Do (c_readlines reader) (fun lines =>
  foldr Yield
    (Do (c_close reader) (fun _ => Stop))
    lines)).

(** The loop of lines 18-20, [index] being the counter of [enumerate]. *)
Fixpoint sample_loop (indices : gset Z) (index : Z) (lines : list string)
    (after : gen) : gen :=
  match lines with
  | [] => after
  | line :: rest =>
      if decide (index ∈ indices)
      then Yield line (sample_loop indices (index + 1) rest after)
      else sample_loop indices (index + 1) rest after
  end.

(** Lines 15-21. *)
Definition sample_data (k : Z) : gen :=
  Do (c_random_sample num_packages k) (fun drawn =>
  let indices : gset Z := list_to_set drawn in
  Do (c_open data_filename ModeR) (fun reader =>
  Do (c_readlines reader) (fun lines =>
  sample_loop indices 0 lines
    (Do (c_close reader) (fun _ => Stop))))).

(** Lines 24-34; [k = None] is the default argument. *)
Definition generate_page (filename : string) (k : option Z) : M unit :=
  with_open template_filename ModeR (fun reference =>
    with_open filename ModeW (fun writer =>
      for_line_in reference (fun line =>
        if contains marker line then
          match k with
          | None => g <- call_generator get_data ;; writelines writer g
          | Some k => g <- call_generator (sample_data k) ;; writelines writer g
          end
        else do_write writer line))).

(** ** Pure views of the sampling loop *)

(** The lines [sample_loop] yields. *)
Fixpoint selected (indices : gset Z) (index : Z) (lines : list string)
  : list string :=
  match lines with
  | [] => []
  | line :: rest =>
      if decide (index ∈ indices)
      then line :: selected indices (index + 1) rest
      else selected indices (index + 1) rest
  end.

(** The indices from [index] up to [index + n], the latter excluded,
    that are in the drawn set, in ascending order. *)
Definition chosen (indices : gset Z) (index n : Z) : list Z :=
  filter (.∈ indices) (seqZ index n).

(** What [random.sample(range(n), k)] promises of its result: [k]
    distinct elements of the range. *)
Definition valid_sample (n k : Z) (draw : list Z) : Prop :=
  Z.of_nat (length draw) = k ∧ NoDup draw ∧ Forall (λ i, 0 <= i < n) draw.

(** ** Pure views of writing *)

(** A device with budget [q] accepts [n] more writes. *)
Definition fits (q : option nat) (n : nat) : Prop :=
  match q with
  | None => True
  | Some m => (n <= m)%nat
  end.

Global Instance fits_dec q n : Decision (fits q n).
Proof. destruct q; simpl; apply _. Defined.

(** The budget after [n] writes. *)
Definition spend (n : nat) (q : option nat) : option nat :=
  (λ m, m - n)%nat <$> q.

(** The part of a sequence of writes that a device with budget [q]
    accepts. *)
Definition written (q : option nat) (ls : list string) : list string :=
  match q with
  | None => ls
  | Some m => take m ls
  end.

(** The world once [ls] has been appended to the file at [p]. *)
Definition wrote (p : string) (ls : list string) (w : world) : world :=
  set_writes_left (spend (length ls) (writes_left w))
    (set_files
       (<[p := default EmptyString (files w !! p) +:+ join ls]> (files w)) w).

(** ** Pure views of the page *)

(** What one occurrence of the marker hands to the writer: the lines,
    the exception that ends the block if any, and the entropy left. *)
Definition block (data : option string) (k : option Z) (ent : list (list Z))
  : list string * option exn * list (list Z) :=
  match k with
  | None =>
      match data with
      | Some text => (splitlines text, None, ent)
      | None => ([], Some FileNotFoundError, ent)
      end
  | Some k =>
      if decide (0 <= k <= num_packages) then
        match data with
        | Some text =>
            (selected (list_to_set (hd [] ent)) 0 (splitlines text), None, tl ent)
        | None => ([], Some FileNotFoundError, tl ent)
        end
      else ([], Some ValueError, ent)
  end.

(** What one line of the template hands to the writer. *)
Definition chunk (data : option string) (k : option Z) (ent : list (list Z))
    (line : string) : list string * option exn * list (list Z) :=
  if contains marker line then block data k ent else ([line], None, ent).

(** The writes a page asks for, in order, up to the first exception
    of a block. *)
Fixpoint plan (template : list string) (data : option string) (k : option Z)
    (ent : list (list Z)) : list string * option exn * list (list Z) :=
  match template with
  | [] => ([], None, ent)
  | line :: template' =>
      match chunk data k ent line with
      | (ls, Some e, ent1) => (ls, Some e, ent1)
      | (ls, None, ent1) =>
          let '(ls', e, ent2) := plan template' data k ent1 in
          ((ls ++ ls')%list, e, ent2)
      end
  end.

(** How a run ends that met exception [e], or none. *)
Definition status (e : option exn) : result unit :=
  match e with
  | None => Ok tt
  | Some e => Err e
  end.

(** The world with a reader of the data file left open. *)
Definition leaked (w : world) : world :=
  set_handles
    (<[fresh (dom (handles w)) := Handle data_filename ModeR]> (handles w)) w.

(** The body of the loop of [generate_page]: at a marker line, and at
    any line. *)
Definition emit (writer : nat) (k : option Z) : M unit :=
  match k with
  | None => g <- call_generator get_data ;; writelines writer g
  | Some k => g <- call_generator (sample_data k) ;; writelines writer g
  end.

Definition page_line (writer : nat) (k : option Z) (line : string) : M unit :=
  if contains marker line then emit writer k else do_write writer line.

(** The state a refused write leaves: the lines that fitted are in the
    file, and at most a reader of the data file is still open. *)
Definition cut_short (p : string) (ls : list string) (w w' : world) : Prop :=
  files w' = files (wrote p (written (writes_left w) ls) w) ∧
  readonly w' = readonly w ∧
  writes_left w' = Some O ∧
  (handles w' = handles w ∨ handles w' = handles (leaked w)).

(** The world in which the loop of [generate_page] runs: the template
    and the output are open, the output is empty. *)
Definition opened (filename : string) (w : world) : world :=
  set_handles
    (<[fresh (dom (<[fresh (dom (handles w)) := Handle template_filename ModeR]>
                     (handles w)))
       := Handle filename ModeW]>
       (<[fresh (dom (handles w)) := Handle template_filename ModeR]>
          (handles w)))
    (set_files (<[filename := EmptyString]> (files w)) w).

(** ** The page the specification describes *)

(** The lines of the page in full mode: each marker line gives way to
    the lines of the data file, every other line stays. *)
Definition page_lines (template data : string) : list string :=
  flat_map (λ line, if contains marker line then splitlines data else [line])
    (splitlines template).

(** Containment of the marker, as a proposition. *)
Definition marker_line (line : string) : Prop :=
  ∃ before after, line = before +:+ marker +:+ after.

(** What a marker line gives way to: the data file in full mode, a
    selection of its lines in sampling mode. *)
Definition data_block (data : string) (k : option Z) (b : list string) : Prop :=
  match k with
  | None => b = splitlines data
  | Some _ => ∃ indices : gset Z, b = selected indices 0 (splitlines data)
  end.

(** ** Further views *)

(** The number of lines of a template that contain the marker. *)
Definition marker_count (T : list string) : nat :=
  length (filter (λ line, contains marker line = true) T).

(** A sample size that [random.sample] accepts, or none. *)
Definition in_range (k : option Z) : Prop :=
  match k with
  | Some k => 0 <= k <= num_packages
  | None => True
  end.

(** ** Example inputs *)

Definition nl : string := String LF EmptyString.

(** The template and the data file of the end-to-end example of the
    specification. *)
Definition example_template : string :=
  "X" +:+ nl +:+ "DATA" +:+ nl +:+ "Y" +:+ nl.
Definition example_data : string :=
  "A" +:+ nl +:+ "B" +:+ nl +:+ "C" +:+ nl.

Definition example_files : gmap string string :=
  <[template_filename := example_template]>
    (<[data_filename := example_data]> ∅).

(** Both files in place, no file open, a device that never fails, and
    [draws] for the calls of [random.sample] to come. *)
Definition example_world (draws : list (list Z)) : world :=
  World example_files ∅ ∅ None draws.

(** The same with a device that accepts [q] writes. *)
Definition full_disk_world (q : nat) : world :=
  World example_files ∅ ∅ (Some q) [].

(** The same without the data file, and with an output that cannot be
    created. *)
Definition no_data_world : world :=
  World (<[template_filename := example_template]> ∅) ∅ ∅ None [].
Definition readonly_world : world :=
  World example_files {["out.html"]} ∅ None [].

(** No file at all. *)
Definition empty_world : world := World ∅ ∅ ∅ None [].


(** A template with two marker lines, one of them with text around the
    marker. *)
Definition two_marker_template : string :=
  "<p>DATA</p>" +:+ nl +:+ "Z" +:+ nl +:+ "DATA".
Definition two_marker_world : world :=
  World (<[template_filename := two_marker_template]>
           (<[data_filename := example_data]> ∅)) ∅ ∅ None [].

(** A data file of [num_packages] records. *)
Definition long_data : string :=
  N.iter (Z.to_N num_packages) (fun s => "p" +:+ nl +:+ s) EmptyString.
Definition long_world (draws : list (list Z)) : world :=
  World (<[data_filename := long_data]> ∅) ∅ ∅ None draws.

(** The example template beside a data file of [num_packages]
    records. *)
Definition long_page_world (draws : list (list Z)) : world :=
  World (<[data_filename := long_data]>
           (<[template_filename := example_template]> ∅)) ∅ ∅ None draws.

(** * Properties *)

(** ** Text *)

Section Text.

Lemma append_cons (c : Ascii.ascii) (s t : string) :
  String c s +:+ t = String c (s +:+ t).
Proof. reflexivity. Qed.

Lemma append_assoc (s1 s2 s3 : string) :
  (s1 +:+ s2) +:+ s3 = s1 +:+ (s2 +:+ s3).
Proof.
  induction s1 as [|c s1 IH]; [done|].
  by rewrite !append_cons, IH.
Qed.

Lemma append_nil_r (s : string) : s +:+ EmptyString = s.
Proof.
  induction s as [|c s IH]; [done|].
  by rewrite append_cons, IH.
Qed.

Lemma join_cons (l : string) (ls : list string) :
  join (l :: ls) = l +:+ join ls.
Proof. reflexivity. Qed.

Lemma join_app (l1 l2 : list string) :
  join (l1 ++ l2) = join l1 +:+ join l2.
Proof.
  induction l1 as [|x l1 IH]; [done|].
  by rewrite <- app_comm_cons, !join_cons, IH, append_assoc.
Qed.

(** Splitting a text into lines loses nothing. *)
Lemma join_splitlines (s : string) : join (splitlines s) = s.
Proof.
  induction s as [|c s IH]; [done|].
  simpl. destruct (Ascii.eqb c LF).
  - by rewrite join_cons, IH.
  - destruct (splitlines s) as [|l ls].
    + by rewrite <- IH.
    + by rewrite join_cons, append_cons, <- join_cons, IH.
Qed.

Lemma prefix_spec (n h : string) :
  String.prefix n h = true <-> exists s, h = n +:+ s.
Proof.
  revert h; induction n as [|a n IH]; intros h.
  - split; [by exists h|by destruct h].
  - destruct h as [|b h]; simpl; [split; [done|by intros [? ?]]|].
    destruct (Ascii.ascii_dec a b) as [->|Hne].
    + rewrite IH. split; intros [s Hs]; exists s;
        rewrite ?append_cons in *; congruence.
    + split; [done|intros [s Hs]; rewrite append_cons in Hs; congruence].
Qed.

(** [contains] is containment as a substring. *)
Lemma contains_spec (n h : string) :
  contains n h = true <-> exists p s, h = p +:+ n +:+ s.
Proof.
  induction h as [|c h IH]; cbn [contains].
  - rewrite orb_false_r, prefix_spec. split.
    + intros [s Hs]. by exists EmptyString, s.
    + intros [p [s Hs]]. destruct p; [by exists s|done].
  - rewrite orb_true_iff, IH, prefix_spec. split.
    + intros [[s Hs]|[p [s Hs]]].
      * by exists EmptyString, s.
      * exists (String c p), s. by rewrite append_cons, Hs.
    + intros [p [s Hs]]. destruct p as [|c' p].
      * left. by exists s.
      * right. exists p, s. rewrite append_cons in Hs. congruence.
Qed.

End Text.

(** ** The sampling loop, as lists *)

Section Sampling.
Implicit Types (indices : gset Z) (lines : list string).

Lemma sample_loop_selected indices index lines after :
  sample_loop indices index lines after
  = foldr Yield after (selected indices index lines).
Proof.
  revert index; induction lines as [|l ls IH]; intros index; simpl; [done|].
  destruct (decide (index ∈ indices)); simpl; by rewrite IH.
Qed.

Lemma chosen_cons indices index n :
  0 < n ->
  chosen indices index n =
    if decide (index ∈ indices) then index :: chosen indices (index + 1) (n - 1)
    else chosen indices (index + 1) (n - 1).
Proof.
  intros Hn. unfold chosen. rewrite seqZ_cons by done.
  rewrite filter_cons. replace (Z.succ index) with (index + 1) by lia.
  replace (Z.pred n) with (n - 1) by lia. done.
Qed.

Lemma selected_chosen indices index lines :
  Forall2 (λ i y, index <= i ∧ lines !! Z.to_nat (i - index) = Some y)
    (chosen indices index (Z.of_nat (length lines)))
    (selected indices index lines).
Proof.
  revert index; induction lines as [|l ls IH]; intros index.
  - constructor.
  - rewrite chosen_cons by (simpl; lia).
    replace (Z.of_nat (length (l :: ls)) - 1) with (Z.of_nat (length ls))
      by (simpl; lia).
    assert (Forall2 (λ i y, index <= i ∧ (l :: ls) !! Z.to_nat (i - index) = Some y)
              (chosen indices (index + 1) (Z.of_nat (length ls)))
              (selected indices (index + 1) ls)) as Hrest.
    { eapply Forall2_impl; [apply IH|]. intros i y [Hi Hy]. split; [lia|].
      replace (Z.to_nat (i - index)) with (S (Z.to_nat (i - (index + 1)))) by lia.
      done. }
    simpl. destruct (decide (index ∈ indices)); [|done].
    constructor; [|done]. split; [lia|]. by rewrite Z.sub_diag.
Qed.

Lemma chosen_sorted indices index n :
  StronglySorted Z.lt (chosen indices index n).
Proof.
  unfold chosen.
  assert (StronglySorted Z.lt (seqZ index n)) as Hs.
  { destruct (decide (0 <= n)) as [Hn|Hn]; [|rewrite seqZ_nil by lia; constructor].
    rewrite <- (Z2Nat.id n) by done. generalize (Z.to_nat n) as m. clear.
    intros m; revert index; induction m as [|m IH]; intros index.
    - constructor.
    - rewrite seqZ_cons by lia. replace (Z.pred (Z.of_nat (S m))) with (Z.of_nat m) by lia.
      constructor; [apply IH|]. apply Forall_forall. intros x Hx.
      apply elem_of_seqZ in Hx. lia. }
  induction Hs as [|x l Hs IH Hx]; [constructor|].
  rewrite filter_cons. destruct (decide (x ∈ indices)); [|done].
  constructor; [done|].
  apply Forall_forall. intros y Hy. apply list_elem_of_filter in Hy.
  rewrite Forall_forall in Hx. apply Hx, Hy.
Qed.

Lemma elem_of_chosen indices index n i :
  i ∈ chosen indices index n <-> i ∈ indices ∧ index <= i < index + n.
Proof. unfold chosen. by rewrite list_elem_of_filter, elem_of_seqZ. Qed.

Lemma length_selected indices index lines :
  length (selected indices index lines)
  = length (chosen indices index (Z.of_nat (length lines))).
Proof. symmetry. eapply Forall2_length, selected_chosen. Qed.

Lemma length_chosen_all indices index n :
  (∀ i, i ∈ indices -> index <= i < index + n) ->
  length (chosen indices index n) = size indices.
Proof.
  intros Hin. rewrite <- (size_list_to_set (C := gset Z)).
  - f_equal. apply set_eq. intros i.
    rewrite elem_of_list_to_set, elem_of_chosen.
    split; [by intros [? ?]|]. intros Hi. split; [done|by apply Hin].
  - apply NoDup_filter, NoDup_seqZ.
Qed.

Lemma selected_all indices index lines :
  (∀ i, index <= i < index + Z.of_nat (length lines) -> i ∈ indices) ->
  selected indices index lines = lines.
Proof.
  revert index; induction lines as [|l ls IH]; intros index Hall; simpl; [done|].
  rewrite decide_True by (apply Hall; simpl; lia).
  f_equal. apply IH. intros i Hi. apply Hall. simpl; lia.
Qed.

End Sampling.

(** ** Commands *)

Section Commands.
Implicit Types (w : world) (p : string) (fd : nat).

Lemma fresh_handle_free w : handles w !! fresh (dom (handles w)) = None.
Proof. apply not_elem_of_dom, is_fresh. Qed.

Lemma do_open_read p text w :
  files w !! p = Some text ->
  do_open p ModeR w
  = (Ok (fresh (dom (handles w))),
     set_handles (<[fresh (dom (handles w)) := Handle p ModeR]> (handles w)) w).
Proof. intros H. unfold do_open. by rewrite H. Qed.

Lemma do_open_read_missing p w :
  files w !! p = None -> do_open p ModeR w = (Err FileNotFoundError, w).
Proof. intros H. unfold do_open. by rewrite H. Qed.

Lemma do_readlines_ok fd p text w :
  handles w !! fd = Some (Handle p ModeR) ->
  files w !! p = Some text ->
  do_readlines fd w = (Ok (splitlines text), w).
Proof. intros Hh Hf. unfold do_readlines. by rewrite Hh, Hf. Qed.

Lemma do_random_sample_ok n k w :
  0 <= k <= n ->
  do_random_sample n k w
  = (Ok (hd [] (entropy w)), set_entropy (tl (entropy w)) w).
Proof. intros H. unfold do_random_sample. by rewrite decide_True. Qed.

Lemma do_random_sample_invalid n k w :
  k < 0 ∨ n < k -> do_random_sample n k w = (Err ValueError, w).
Proof. intros H. unfold do_random_sample. rewrite decide_False; [done|lia]. Qed.

End Commands.

(** ** Generators *)

Section Generators.
Implicit Types (w : world) (g : gen).

Lemma collect_yields (ls : list string) g w :
  collect (foldr Yield g ls) w = (r <- collect g ;; ret ((ls ++ r)%list)) w.
Proof.
  induction ls as [|l ls IH]; simpl.
  - unfold bind, ret. by destruct (collect g w) as [[?|?] ?].
  - unfold bind in *. rewrite IH. by destruct (collect g w) as [[?|?] ?].
Qed.

Lemma collect_sample_data k text w :
  0 <= k <= num_packages ->
  files w !! data_filename = Some text ->
  collect (sample_data k) w
  = (Ok (selected (list_to_set (hd [] (entropy w))) 0 (splitlines text)),
     set_entropy (tl (entropy w)) w).
Proof.
  intros Hk Hdata. unfold sample_data. cbn [collect exec]. unfold bind at 1.
  rewrite do_random_sample_ok by done.
  set (w1 := set_entropy _ w).
  unfold bind at 1. erewrite do_open_read by exact Hdata.
  unfold bind at 1. erewrite do_readlines_ok; [|apply lookup_insert_eq|exact Hdata].
  rewrite sample_loop_selected, collect_yields. cbn.
  rewrite app_nil_r. do 2 f_equal.
  rewrite delete_insert_id by apply fresh_handle_free.
  subst w1. by destruct w.
Qed.
Lemma collect_sample_data_missing k w :
  0 <= k <= num_packages ->
  files w !! data_filename = None ->
  collect (sample_data k) w
  = (Err FileNotFoundError, set_entropy (tl (entropy w)) w).
Proof.
  intros Hk Hdata. unfold sample_data. cbn [collect exec]. unfold bind at 1.
  rewrite do_random_sample_ok by done.
  unfold bind at 1. by rewrite do_open_read_missing.
Qed.

Lemma collect_sample_data_invalid k w :
  k < 0 ∨ num_packages < k ->
  collect (sample_data k) w = (Err ValueError, w).
Proof.
  intros Hk. unfold sample_data. cbn [collect exec]. unfold bind at 1.
  by rewrite do_random_sample_invalid.
Qed.

Lemma valid_sample_set n k draw :
  valid_sample n k draw ->
  Z.of_nat (size (list_to_set (C := gset Z) draw)) = k ∧
  ∀ i, i ∈ (list_to_set draw : gset Z) -> 0 <= i < n.
Proof.
  intros (Hlen & Hnd & Hrange). split.
  - by rewrite size_list_to_set.
  - intros i Hi. rewrite elem_of_list_to_set in Hi.
    rewrite Forall_forall in Hrange. by apply Hrange.
Qed.
End Generators.

(** ** Writing *)

Section Writing.
Implicit Types (w : world) (p : string) (fd : nat) (q : option nat)
  (ls : list string).

Lemma world_ext w1 w2 :
  files w1 = files w2 -> readonly w1 = readonly w2 ->
  handles w1 = handles w2 -> writes_left w1 = writes_left w2 ->
  entropy w1 = entropy w2 -> w1 = w2.
Proof. destruct w1, w2; simpl; congruence. Qed.

Lemma spend_0 q : spend 0 q = q.
Proof. destruct q as [m|]; simpl; [f_equal; lia|done]. Qed.

Lemma spend_add a b q : spend b (spend a q) = spend (a + b) q.
Proof. destruct q as [m|]; simpl; [f_equal; lia|done]. Qed.

Lemma fits_add q a b : fits q (a + b) <-> fits q a ∧ fits (spend a q) b.
Proof. destruct q as [m|]; simpl; [lia|tauto]. Qed.

Lemma written_fits q ls : fits q (length ls) -> written q ls = ls.
Proof. destruct q as [m|]; simpl; [apply take_ge|done]. Qed.

Lemma written_app q l1 l2 :
  fits q (length l1) ->
  written q (l1 ++ l2) = (l1 ++ written (spend (length l1) q) l2)%list.
Proof.
  destruct q as [m|]; simpl; [|done]. intros Hm.
  by rewrite take_app, take_ge.
Qed.

Lemma written_app_short q l1 l2 :
  ¬ fits q (length l1) -> written q (l1 ++ l2) = written q l1.
Proof.
  destruct q as [m|]; simpl; [|tauto]. intros Hm.
  apply take_app_le. lia.
Qed.

Lemma spend_written q ls :
  ¬ fits q (length ls) -> spend (length (written q ls)) q = Some O.
Proof.
  destruct q as [m|]; simpl; [|tauto]. intros Hm.
  rewrite length_take_le by lia. f_equal. lia.
Qed.

Lemma wrote_nil p w : is_Some (files w !! p) -> wrote p [] w = w.
Proof.
  intros [c Hc]. apply world_ext; simpl; try done.
  - rewrite Hc. simpl. rewrite append_nil_r. by apply insert_id.
  - apply spend_0.
Qed.

Lemma wrote_app p l1 l2 w :
  wrote p (l1 ++ l2) w = wrote p l2 (wrote p l1 w).
Proof.
  apply world_ext; simpl; try done.
  - rewrite lookup_insert_eq, insert_insert_eq. simpl.
    by rewrite join_app, append_assoc.
  - by rewrite spend_add, length_app.
Qed.

Lemma files_wrote p ls w c :
  files w !! p = Some c ->
  files (wrote p ls w) = <[p := c +:+ join ls]> (files w).
Proof. intros Hc. simpl. by rewrite Hc. Qed.

(** One write that the device accepts. *)
Lemma do_write_ok fd p s w :
  handles w !! fd = Some (Handle p ModeW) ->
  fits (writes_left w) 1 ->
  do_write fd s w = (Ok tt, wrote p [s] w).
Proof.
  intros Hfd Hq. unfold do_write. rewrite Hfd.
  assert (wrote p [s] w
          = set_writes_left (Nat.pred <$> writes_left w)
              (set_files (<[p := default EmptyString (files w !! p) +:+ s]>
                            (files w)) w)) as ->.
  { apply world_ext; simpl; try done.
    - by rewrite append_nil_r.
    - destruct (writes_left w); simpl; [f_equal; lia|done]. }
  destruct (writes_left w) as [[|m]|]; simpl in *; [lia|done|done].
Qed.

(** One write that the device refuses. *)
Lemma do_write_full fd p s w :
  handles w !! fd = Some (Handle p ModeW) ->
  ¬ fits (writes_left w) 1 ->
  do_write fd s w = (Err OSError, w).
Proof.
  intros Hfd Hq. unfold do_write. rewrite Hfd.
  destruct (writes_left w) as [[|m]|]; simpl in *; [done|lia|tauto].
Qed.

(** A run of writes: all of them if the budget allows, else the part
    that fits and the error of the first write refused. *)
Lemma write_lines fd p ls w :
  handles w !! fd = Some (Handle p ModeW) ->
  is_Some (files w !! p) ->
  for_each ls (do_write fd) w
  = (if decide (fits (writes_left w) (length ls)) then Ok tt else Err OSError,
     wrote p (written (writes_left w) ls) w).
Proof.
  revert w; induction ls as [|l ls IH]; intros w Hfd Hp.
  - simpl. rewrite decide_True by (destruct (writes_left w); simpl; [lia|done]).
    assert (written (writes_left w) [] = []) as ->
      by (destruct (writes_left w); simpl; by rewrite ?take_nil).
    by rewrite wrote_nil.
  - cbn [for_each]. unfold bind.
    destruct (decide (fits (writes_left w) 1)) as [H1|H1].
    + rewrite (do_write_ok fd p) by done.
      rewrite IH; [|done|].
      2:{ destruct Hp as [c Hc]. erewrite files_wrote by done.
          rewrite lookup_insert_eq. eauto. }
      change (l :: ls) with ([l] ++ ls)%list.
      rewrite (written_app _ [l]) by done.
      rewrite wrote_app. f_equal.
      change (length ([l] ++ ls)%list) with (1 + length ls)%nat.
      destruct (decide (fits (writes_left w) (1 + length ls))) as [H|H];
        rewrite fits_add in H.
      * rewrite decide_True; [done|]. apply H.
      * rewrite decide_False; [done|]. tauto.
    + rewrite (do_write_full fd p) by done.
      rewrite decide_False.
      2:{ change (length (l :: ls)) with (1 + length ls)%nat.
          rewrite fits_add. tauto. }
      f_equal. change (l :: ls) with ([l] ++ ls)%list.
      rewrite written_app_short by done.
      destruct (writes_left w) as [[|m]|] eqn:Hq; simpl in *; [|lia|tauto].
      by rewrite wrote_nil.
Qed.
End Writing.

(** ** Blocks and the loop over the template *)

Section Blocks.
Implicit Types (w : world) (p : string) (writer : nat) (k : option Z).

Lemma writelines_yields writer (ls : list string) g w :
  writelines writer (foldr Yield g ls) w
  = (for_each ls (do_write writer) ;; writelines writer g) w.
Proof.
  revert w; induction ls as [|l ls IH]; intros w; [done|].
  cbn [foldr writelines for_each]. unfold bind.
  destruct (do_write writer l w) as [[[]|e] w1]; [|done].
  rewrite IH. done.
Qed.

(** A reader of the data file, from [open] to [close], around the
    writes of the lines that [loop] yields. *)
Lemma writelines_reader writer p (loop : list string -> gen -> gen)
    (pick : list string -> list string) text w :
  (∀ lines after, loop lines after = foldr Yield after (pick lines)) ->
  handles w !! writer = Some (Handle p ModeW) ->
  is_Some (files w !! p) ->
  p ≠ data_filename ->
  files w !! data_filename = Some text ->
  writelines writer
    (Do (c_open data_filename ModeR) (fun reader =>
     Do (c_readlines reader) (fun lines =>
     loop lines (Do (c_close reader) (fun _ => Stop))))) w
  = if decide (fits (writes_left w) (length (pick (splitlines text))))
    then (Ok tt, wrote p (pick (splitlines text)) w)
    else (Err OSError,
          wrote p (written (writes_left w) (pick (splitlines text)))
            (leaked w)).
Proof.
  intros Hloop Hwriter Hp Hne Hdata.
  cbn [writelines exec]. unfold bind at 1.
  erewrite do_open_read by exact Hdata. fold (leaked w).
  assert (handles (leaked w) !! writer = Some (Handle p ModeW)) as Hwriter'.
  { simpl. rewrite lookup_insert_ne; [done|]. intros Heq.
    pose proof (fresh_handle_free w) as Hfree. rewrite Heq in Hfree. congruence. }
  unfold bind at 1. erewrite do_readlines_ok;
    [|simpl; apply lookup_insert_eq|exact Hdata].
  rewrite Hloop, writelines_yields. unfold bind at 1.
  rewrite (write_lines writer p) by done.
  change (writes_left (leaked w)) with (writes_left w).
  destruct (decide (fits (writes_left w) (length (pick (splitlines text)))))
    as [Hfits|Hfits]; [|done].
  rewrite written_fits by done. cbn. f_equal.
  apply world_ext; simpl; try done.
  by rewrite delete_insert_id by apply fresh_handle_free.
Qed.

Lemma writelines_Do writer c (k : resp c -> gen) w :
  writelines writer (Do c k) w
  = match exec c w with
    | (Ok r, w') => writelines writer (k r) w'
    | (Err e, w') => (Err e, w')
    end.
Proof. reflexivity. Qed.

(** One block, whatever the mode. *)
Lemma emit_block writer p k w :
  handles w !! writer = Some (Handle p ModeW) ->
  is_Some (files w !! p) ->
  p ≠ data_filename ->
  emit writer k w
  = let '(ls, e, ent) := block (files w !! data_filename) k (entropy w) in
    if decide (fits (writes_left w) (length ls))
    then (status e, set_entropy ent (wrote p ls w))
    else (Err OSError,
          wrote p (written (writes_left w) ls) (leaked (set_entropy ent w))).
Proof.
  intros Hwriter Hp Hne.
  assert (∀ q, fits q (@length string [])) as Hnil
    by (intros [m|]; simpl; [lia|done]).
  assert (∀ e, set_entropy e (wrote p [] w) = set_entropy e w) as Hskip
    by (intros e; by rewrite wrote_nil).
  destruct k as [k|]; unfold emit, call_generator, block;
    unfold bind at 1, ret.
  - unfold sample_data. rewrite writelines_Do. cbn [exec].
    destruct (decide (0 <= k <= num_packages)) as [Hk|Hk].
    + rewrite do_random_sample_ok by done. cbv zeta.
      set (w1 := set_entropy (tl (entropy w)) w).
      destruct (files w !! data_filename) as [text|] eqn:Hdata.
      * rewrite (writelines_reader writer p
                   (sample_loop (list_to_set (hd [] (entropy w))) 0)
                   (selected (list_to_set (hd [] (entropy w))) 0) text w1);
          [|apply sample_loop_selected|done..].
        change (writes_left w1) with (writes_left w).
        by destruct (decide _).
      * rewrite writelines_Do. cbn [exec].
        rewrite do_open_read_missing by done.
        rewrite decide_True by apply Hnil. unfold status. rewrite Hskip. reflexivity.
    + rewrite do_random_sample_invalid by lia.
      rewrite decide_True by apply Hnil. unfold status.
      rewrite Hskip. f_equal. by apply world_ext.
  - unfold get_data.
    destruct (files w !! data_filename) as [text|] eqn:Hdata.
    + rewrite (writelines_reader writer p
                 (fun lines after => foldr Yield after lines)
                 (fun ls => ls) text w) by done.
      by destruct (decide _).
    + rewrite writelines_Do. cbn [exec].
      rewrite do_open_read_missing by done.
      rewrite decide_True by apply Hnil. unfold status.
      rewrite Hskip. f_equal. by apply world_ext.
Qed.
End Blocks.

Section Loop.
Implicit Types (w : world) (p : string) (writer : nat) (k : option Z)
  (T : list string).

Lemma page_line_fits writer p k line w :
  handles w !! writer = Some (Handle p ModeW) ->
  is_Some (files w !! p) ->
  p ≠ data_filename ->
  ∀ ls e ent,
    chunk (files w !! data_filename) k (entropy w) line = (ls, e, ent) ->
    fits (writes_left w) (length ls) ->
    page_line writer k line w = (status e, set_entropy ent (wrote p ls w)).
Proof.
  intros Hwriter Hp Hne ls e ent Hchunk Hfits. unfold page_line, chunk in *.
  destruct (contains marker line).
  - rewrite (emit_block writer p) by done. rewrite Hchunk.
    by rewrite decide_True.
  - injection Hchunk as <- <- <-.
    by rewrite (do_write_ok writer p).
Qed.

Lemma page_line_short writer p k line w :
  handles w !! writer = Some (Handle p ModeW) ->
  is_Some (files w !! p) ->
  p ≠ data_filename ->
  ∀ ls e ent,
    chunk (files w !! data_filename) k (entropy w) line = (ls, e, ent) ->
    ¬ fits (writes_left w) (length ls) ->
    ∃ w', page_line writer k line w = (Err OSError, w') ∧ cut_short p ls w w'.
Proof.
  intros Hwriter Hp Hne ls e ent Hchunk Hfits. unfold page_line, chunk in *.
  destruct (contains marker line).
  - rewrite (emit_block writer p) by done. rewrite Hchunk.
    rewrite decide_False by done. eexists; split; [done|].
    split_and!; simpl; try done.
    + by apply spend_written.
    + by right.
  - injection Hchunk as <- <- <-.
    rewrite (do_write_full writer p) by done. eexists; split; [done|].
    destruct (writes_left w) as [[|m]|] eqn:Hq; simpl in Hfits; [|lia|tauto].
    split_and!; simpl; try done.
    + rewrite Hq. destruct Hp as [c Hc]. rewrite Hc. simpl.
      rewrite append_nil_r. by rewrite insert_id.
    + by left.
Qed.

Lemma page_loop_fits writer p k T : ∀ w,
  handles w !! writer = Some (Handle p ModeW) ->
  is_Some (files w !! p) ->
  p ≠ data_filename ->
  ∀ ls e ent,
    plan T (files w !! data_filename) k (entropy w) = (ls, e, ent) ->
    fits (writes_left w) (length ls) ->
    for_each T (page_line writer k) w
    = (status e, set_entropy ent (wrote p ls w)).
Proof.
  induction T as [|line T IH]; intros w Hwriter Hp Hne ls e ent Hplan Hfits.
  - injection Hplan as <- <- <-. simpl. f_equal.
    rewrite wrote_nil by done. by apply world_ext.
  - cbn [plan] in Hplan. cbn [for_each]. unfold bind.
    destruct (chunk _ k _ line) as [[ls1 [e1|]] ent1] eqn:Hchunk.
    + injection Hplan as <- <- <-.
      by rewrite (page_line_fits writer p k line w Hwriter Hp Hne _ _ _ Hchunk).
    + destruct (plan T _ k ent1) as [[ls2 e2] ent2] eqn:Hrest.
      injection Hplan as <- <- <-.
      rewrite length_app in Hfits. apply fits_add in Hfits as [Hfits1 Hfits2].
      rewrite (page_line_fits writer p k line w Hwriter Hp Hne _ _ _ Hchunk)
        by done.
      simpl status. cbv iota.
      set (w1 := set_entropy ent1 (wrote p ls1 w)).
      assert (files w1 !! data_filename = files w !! data_filename) as Hdata
        by (simpl; by rewrite lookup_insert_ne).
      rewrite (IH w1 Hwriter) with (ls := ls2) (e := e2) (ent := ent2);
        [| simpl; rewrite lookup_insert_eq; eauto | done
         | by rewrite Hdata | done].
      f_equal. subst w1. rewrite wrote_app. by apply world_ext.
Qed.

Lemma page_loop_short writer p k T : ∀ w,
  handles w !! writer = Some (Handle p ModeW) ->
  is_Some (files w !! p) ->
  p ≠ data_filename ->
  ∀ ls e ent,
    plan T (files w !! data_filename) k (entropy w) = (ls, e, ent) ->
    ¬ fits (writes_left w) (length ls) ->
    ∃ w', for_each T (page_line writer k) w = (Err OSError, w') ∧
          cut_short p ls w w'.
Proof.
  induction T as [|line T IH]; intros w Hwriter Hp Hne ls e ent Hplan Hfits.
  - injection Hplan as <- <- <-. destruct Hfits.
    destruct (writes_left w); simpl; [lia|done].
  - cbn [plan] in Hplan. cbn [for_each]. unfold bind.
    destruct (chunk _ k _ line) as [[ls1 e1] ent1] eqn:Hchunk.
    destruct (decide (fits (writes_left w) (length ls1))) as [Hfits1|Hfits1].
    + destruct e1 as [e1|]; [injection Hplan as <- <- <-; done|].
      destruct (plan T _ k ent1) as [[ls2 e2] ent2] eqn:Hrest.
      injection Hplan as <- <- <-.
      rewrite (page_line_fits writer p k line w Hwriter Hp Hne _ _ _ Hchunk)
        by done.
      simpl status. cbv iota.
      set (w1 := set_entropy ent1 (wrote p ls1 w)).
      assert (files w1 !! data_filename = files w !! data_filename) as Hdata
        by (simpl; by rewrite lookup_insert_ne).
      destruct (IH w1 Hwriter) with (ls := ls2) (e := e2) (ent := ent2)
        as (w' & Hrun & Hfiles & Hro & Hq & Hh);
        [ simpl; rewrite lookup_insert_eq; eauto | done
        | by rewrite Hdata
        | rewrite length_app, fits_add in Hfits; simpl; tauto |].
      exists w'. split; [done|]. split_and!; try done.
      rewrite Hfiles. rewrite written_app by done.
      by rewrite wrote_app.
    + destruct (page_line_short writer p k line w Hwriter Hp Hne _ _ _
                  Hchunk Hfits1) as (w' & Hrun & Hfiles & Hro & Hq & Hh).
      rewrite Hrun. exists w'. split; [done|]. split_and!; try done.
      rewrite Hfiles.
      assert (written (writes_left w) ls = written (writes_left w) ls1) as ->;
        [|done].
      destruct e1 as [e1|]; [by injection Hplan as <- <- <-|].
      destruct (plan T _ k ent1) as [[ls2 e2] ent2].
      injection Hplan as <- <- <-. by apply written_app_short.
Qed.
End Loop.

(** ** The page *)

Section Page.
Implicit Types (w : world) (filename : string) (k : option Z).

Lemma generate_page_no_template filename k w :
  files w !! template_filename = None ->
  generate_page filename k w = (Err FileNotFoundError, w).
Proof.
  intros Ht. unfold generate_page, with_open.
  by rewrite do_open_read_missing.
Qed.

Lemma generate_page_readonly filename k text w :
  files w !! template_filename = Some text ->
  filename ∈ readonly w ->
  generate_page filename k w = (Err OSError, w).
Proof.
  intros Ht Hro. unfold generate_page, with_open.
  erewrite do_open_read by done.
  unfold do_open at 1. simpl readonly. rewrite decide_True by done.
  simpl. f_equal. apply world_ext; simpl; try done.
  by rewrite delete_insert_id by apply fresh_handle_free.
Qed.

Lemma generate_page_unfold filename k text w :
  files w !! template_filename = Some text ->
  filename ∉ readonly w ->
  filename ≠ template_filename ->
  generate_page filename k w
  = let '(r, w') :=
      for_each (splitlines text)
        (page_line
           (fresh (dom (<[fresh (dom (handles w))
                          := Handle template_filename ModeR]> (handles w)))) k)
        (opened filename w) in
    (r, set_handles
          (delete (fresh (dom (handles w)))
             (delete
                (fresh (dom (<[fresh (dom (handles w))
                               := Handle template_filename ModeR]> (handles w))))
                (handles w'))) w').
Proof.
  intros Ht Hro Hne. unfold generate_page, with_open.
  erewrite do_open_read by done.
  unfold do_open at 1. simpl readonly. rewrite decide_False by done.
  simpl handles. simpl files. fold (opened filename w).
  unfold for_line_in, bind.
  erewrite do_readlines_ok.
  2:{ simpl. rewrite lookup_insert_ne; [apply lookup_insert_eq|].
      intros Heq.
      pose proof (is_fresh (dom (<[fresh (dom (handles w))
                          := Handle template_filename ModeR]> (handles w)))) as Hf.
      rewrite Heq in Hf. apply Hf. rewrite dom_insert_L. set_solver. }
  2:{ simpl. by rewrite lookup_insert_ne. }
  unfold page_line, emit.
  destruct (for_each _ _ _) as [r w']. done.
Qed.

Lemma opened_writer filename w :
  handles (opened filename w)
    !! fresh (dom (<[fresh (dom (handles w))
                     := Handle template_filename ModeR]> (handles w)))
  = Some (Handle filename ModeW).
Proof. apply lookup_insert_eq. Qed.

Lemma opened_closed filename w :
  delete (fresh (dom (handles w)))
    (delete
       (fresh (dom (<[fresh (dom (handles w))
                      := Handle template_filename ModeR]> (handles w))))
       (handles (opened filename w)))
  = handles w.
Proof.
  simpl. rewrite delete_insert_id.
  - apply delete_insert_id, fresh_handle_free.
  - apply not_elem_of_dom, is_fresh.
Qed.

Lemma opened_leaked_closed filename w :
  ∃ fd, handles w !! fd = None ∧
    delete (fresh (dom (handles w)))
      (delete
         (fresh (dom (<[fresh (dom (handles w))
                        := Handle template_filename ModeR]> (handles w))))
         (handles (leaked (opened filename w))))
    = <[fd := Handle data_filename ModeR]> (handles w).
Proof.
  change (handles (leaked (opened filename w)))
    with (<[fresh (dom (handles (opened filename w)))
            := Handle data_filename ModeR]> (handles (opened filename w))).
  pose proof (is_fresh (dom (handles (opened filename w)))) as Hfresh.
  revert Hfresh. generalize (fresh (dom (handles (opened filename w)))).
  intros fd Hfresh. exists fd.
  assert (fd ≠ fresh (dom (<[fresh (dom (handles w))
                             := Handle template_filename ModeR]> (handles w)))
          ∧ fd ≠ fresh (dom (handles w)) ∧ fd ∉ dom (handles w))
    as (Hne1 & Hne0 & Hout).
  { simpl in Hfresh. rewrite !dom_insert_L in Hfresh.
    rewrite !elem_of_union, !elem_of_singleton in Hfresh.
    rewrite dom_insert_L. split_and!; intros ?; apply Hfresh; auto. }
  split; [by apply not_elem_of_dom|].
  rewrite !delete_insert_ne by done.
  f_equal. apply (opened_closed filename w).
Qed.

(** A page whose writes all fit the budget of the device. *)
Lemma generate_page_fits filename k text w :
  files w !! template_filename = Some text ->
  filename ∉ readonly w ->
  filename ≠ template_filename ->
  filename ≠ data_filename ->
  ∀ ls e ent,
    plan (splitlines text) (files w !! data_filename) k (entropy w)
    = (ls, e, ent) ->
    fits (writes_left w) (length ls) ->
    generate_page filename k w
    = (status e,
       World (<[filename := join ls]> (files w)) (readonly w) (handles w)
         (spend (length ls) (writes_left w)) ent).
Proof.
  intros Ht Hro Hnt Hnd ls e ent Hplan Hfits.
  rewrite (generate_page_unfold filename k text) by done.
  rewrite (page_loop_fits _ filename k (splitlines text) (opened filename w)
             (opened_writer filename w)) with (ls := ls) (e := e) (ent := ent);
    [| simpl; rewrite lookup_insert_eq; eauto | done
     | simpl; by rewrite lookup_insert_ne | done].
  f_equal. apply world_ext; try done.
  - simpl. by rewrite lookup_insert_eq, insert_insert_eq.
  - apply (opened_closed filename w).
Qed.

(** A page cut short by the device. *)
Lemma generate_page_short filename k text w :
  files w !! template_filename = Some text ->
  filename ∉ readonly w ->
  filename ≠ template_filename ->
  filename ≠ data_filename ->
  ∀ ls e ent,
    plan (splitlines text) (files w !! data_filename) k (entropy w)
    = (ls, e, ent) ->
    ¬ fits (writes_left w) (length ls) ->
    ∃ w',
      generate_page filename k w = (Err OSError, w') ∧
      files w' = <[filename := join (written (writes_left w) ls)]> (files w) ∧
      readonly w' = readonly w ∧
      writes_left w' = Some O ∧
      (handles w' = handles w ∨
       ∃ fd, handles w !! fd = None ∧
             handles w' = <[fd := Handle data_filename ModeR]> (handles w)).
Proof.
  intros Ht Hro Hnt Hnd ls e ent Hplan Hfits.
  rewrite (generate_page_unfold filename k text) by done.
  destruct (page_loop_short _ filename k (splitlines text) (opened filename w)
              (opened_writer filename w)) with (ls := ls) (e := e) (ent := ent)
    as (w' & -> & Hfiles & Hreadonly & Hq & Hh);
    [ simpl; rewrite lookup_insert_eq; eauto | done
    | simpl; by rewrite lookup_insert_ne | done |].
  eexists; split; [done|]. split_and!; try done.
  - simpl. rewrite Hfiles. simpl.
    by rewrite lookup_insert_eq, insert_insert_eq.
  - simpl. destruct Hh as [->| ->].
    + left. apply opened_closed.
    + right. apply opened_leaked_closed.
Qed.
End Page.

(** ** Plans *)

Section Plans.
Implicit Types (T : list string) (k : option Z) (ent : list (list Z)).

Lemma marker_line_spec line : contains marker line = true <-> marker_line line.
Proof. apply contains_spec. Qed.

Lemma no_marker_lines T :
  forallb (λ line, negb (contains marker line)) T = true ->
  Forall (λ line, ¬ marker_line line) T.
Proof.
  induction T as [|line T IH]; cbn [forallb]; [constructor|].
  rewrite andb_true_iff, negb_true_iff. intros [Hline HT].
  constructor; [|by apply IH].
  rewrite <- marker_line_spec. congruence.
Qed.

Lemma plan_full T data ent :
  plan T (Some data) None ent
  = (flat_map (λ line, if contains marker line then splitlines data else [line]) T,
     None, ent).
Proof.
  induction T as [|line T IH]; [done|].
  cbn [plan flat_map]. unfold chunk.
  destruct (contains marker line); cbn [block]; by rewrite IH.
Qed.


(** A page stops at the first block that raises. *)
Lemma plan_stops pre line post data k ent e ent' :
  Forall (λ line, ¬ marker_line line) pre ->
  marker_line line ->
  block data k ent = ([], Some e, ent') ->
  plan (pre ++ line :: post) data k ent = (pre, Some e, ent').
Proof.
  intros Hpre Hline Hblock.
  induction Hpre as [|l pre Hl _ IH].
  - cbn [app plan]. unfold chunk.
    apply marker_line_spec in Hline. by rewrite Hline, Hblock.
  - rewrite <- app_comm_cons. cbn [plan]. unfold chunk.
    destruct (contains marker l) eqn:Hc.
    + by apply marker_line_spec in Hc.
    + by rewrite IH.
Qed.

(** With the data file in place and a sample size in range, no block
    raises, and every line gives its block. *)
Lemma plan_blocks T data k : ∀ ent,
  match k with Some k => 0 <= k <= num_packages | None => True end ->
  ∃ blocks ent',
    plan T (Some data) k ent = (concat blocks, None, ent') ∧
    Forall2 (λ line b, (marker_line line ∧ data_block data k b) ∨
                       (¬ marker_line line ∧ b = [line])) T blocks.
Proof.
  induction T as [|line T IH]; intros ent Hk.
  - exists [], ent. split; [done|constructor].
  - cbn [plan]. unfold chunk.
    destruct (contains marker line) eqn:Hc.
    + assert (∃ b ent1, block (Some data) k ent = (b, None, ent1)
                        ∧ data_block data k b) as (b & ent1 & -> & Hb).
      { unfold block. destruct k as [k|].
        - rewrite decide_True by done. do 2 eexists. split; [done|].
          by eexists.
        - do 2 eexists. by split. }
      destruct (IH ent1 Hk) as (blocks & ent' & -> & Hall).
      exists (b :: blocks), ent'. split; [done|].
      constructor; [|done]. left. split; [|done]. by apply marker_line_spec.
    + destruct (IH ent Hk) as (blocks & ent' & -> & Hall).
      exists ([line] :: blocks), ent'. split; [done|].
      constructor; [|done]. right. split; [|done].
      intros Hm. apply marker_line_spec in Hm. congruence.
Qed.

End Plans.

(** ** Full mode *)

Section FullMode.
Implicit Types (w : world) (filename template data : string).

(** A page in full mode whose writes fit the budget of the device. *)
Lemma generate_page_full filename template data w :
  files w !! template_filename = Some template ->
  files w !! data_filename = Some data ->
  filename ∉ readonly w ->
  filename ≠ template_filename ->
  filename ≠ data_filename ->
  fits (writes_left w) (length (page_lines template data)) ->
  generate_page filename None w
  = (Ok tt,
     World (<[filename := join (page_lines template data)]> (files w))
       (readonly w) (handles w)
       (spend (length (page_lines template data)) (writes_left w))
       (entropy w)).
Proof.
  intros Ht Hd Hro Hnt Hnd Hq.
  apply (generate_page_fits filename None template w Ht Hro Hnt Hnd
           (page_lines template data) None (entropy w)); [|done].
  rewrite Hd. apply plan_full.
Qed.
End FullMode.

(** ** Closing *)

Section Closing.
Implicit Types (w : world) (filename : string) (k : option Z).

(** Whatever the outcome, the template and the output are closed when
    [generate_page] returns; at most a reader of the data file stays. *)
Lemma generate_page_closes filename k w r w' :
  filename ≠ template_filename ->
  filename ≠ data_filename ->
  generate_page filename k w = (r, w') ->
  handles w' = handles w ∨
  ∃ fd, handles w !! fd = None ∧
        handles w' = <[fd := Handle data_filename ModeR]> (handles w).
Proof.
  intros Hnt Hnd Hrun.
  destruct (files w !! template_filename) as [template|] eqn:Ht.
  2:{ rewrite generate_page_no_template in Hrun by done.
      injection Hrun as <- <-. by left. }
  destruct (decide (filename ∈ readonly w)) as [Hro|Hro].
  { rewrite (generate_page_readonly filename k template) in Hrun by done.
    injection Hrun as <- <-. by left. }
  destruct (plan (splitlines template) (files w !! data_filename) k (entropy w))
    as [[ls e] ent] eqn:Hplan.
  destruct (decide (fits (writes_left w) (length ls))) as [Hfits|Hfits].
  - rewrite (generate_page_fits filename k template w Ht Hro Hnt Hnd
               ls e ent Hplan Hfits) in Hrun.
    injection Hrun as <- <-. by left.
  - destruct (generate_page_short filename k template w Ht Hro Hnt Hnd
                ls e ent Hplan Hfits) as (w1 & Hrun1 & _ & _ & _ & Hh).
    rewrite Hrun1 in Hrun. by injection Hrun as <- <-.
Qed.

(** A run that succeeds leaves no file open. *)
Lemma generate_page_closes_on_success filename k w w' :
  filename ≠ template_filename ->
  filename ≠ data_filename ->
  generate_page filename k w = (Ok tt, w') ->
  handles w' = handles w.
Proof.
  intros Hnt Hnd Hrun.
  destruct (files w !! template_filename) as [template|] eqn:Ht.
  2:{ by rewrite generate_page_no_template in Hrun. }
  destruct (decide (filename ∈ readonly w)) as [Hro|Hro].
  { by rewrite (generate_page_readonly filename k template) in Hrun. }
  destruct (plan (splitlines template) (files w !! data_filename) k (entropy w))
    as [[ls e] ent] eqn:Hplan.
  destruct (decide (fits (writes_left w) (length ls))) as [Hfits|Hfits].
  - rewrite (generate_page_fits filename k template w Ht Hro Hnt Hnd
               ls e ent Hplan Hfits) in Hrun.
    by injection Hrun as _ <-.
  - destruct (generate_page_short filename k template w Ht Hro Hnt Hnd
                ls e ent Hplan Hfits) as (w1 & Hrun1 & _).
    by rewrite Hrun1 in Hrun.
Qed.
End Closing.

(** ** Coroutines *)

Section Coroutines.
Implicit Types (w : world) (g : gen).

(** [writelines] is the loop that advances the generator and writes
    what it yields. *)
Lemma writelines_next writer g w :
  writelines writer g w
  = match next g w with
    | (Ok None, w') => (Ok tt, w')
    | (Ok (Some (line, g')), w') =>
        (do_write writer line ;; writelines writer g') w'
    | (Err e, w') => (Err e, w')
    end.
Proof.
  revert w; induction g as [|line g IH|c k IH]; intros w; [done..|].
  cbn [writelines next]. unfold bind at 1.
  destruct (exec c w) as [[r|e] w1]; [apply IH|done].
Qed.

(** Marker lines give way to the text of the data file itself. *)
Lemma join_page_lines template data :
  join (page_lines template data)
  = join (map (λ line, if contains marker line then data else line)
            (splitlines template)).
Proof.
  unfold page_lines. induction (splitlines template) as [|line T IH]; [done|].
  cbn [flat_map map]. rewrite join_app, join_cons, IH.
  destruct (contains marker line).
  - by rewrite join_splitlines.
  - by rewrite join_cons, append_nil_r.
Qed.
End Coroutines.

(** ** Sampling mode *)

Section SamplingMode.
Implicit Types (indices : gset Z).

Lemma selected_sublist indices index (lines : list string) :
  selected indices index lines `sublist_of` lines.
Proof.
  revert index; induction lines as [|l ls IH]; intros index; simpl.
  - constructor.
  - destruct (decide (index ∈ indices)); by constructor.
Qed.

Lemma selected_empty index (lines : list string) :
  selected ∅ index lines = [].
Proof.
  revert index; induction lines as [|l ls IH]; intros index; simpl; [done|].
  rewrite decide_False by apply not_elem_of_empty. apply IH.
Qed.

Lemma marker_count_cons line T :
  marker_count (line :: T)
  = if contains marker line then S (marker_count T) else marker_count T.
Proof.
  unfold marker_count. rewrite filter_cons.
  destruct (contains marker line); by case_decide.
Qed.

Lemma drop_tail {A} n (l : list A) : drop n (tl l) = drop (S n) l.
Proof. destruct l; simpl; [apply drop_nil|done]. Qed.

(** In sampling mode with the data file in place, a page is the page of
    full mode with lines of the data file left out, and takes one draw
    for each marker line. *)
Lemma plan_sample T data (k0 : Z) : ∀ ent,
  0 <= k0 <= num_packages ->
  ∃ ls,
    plan T (Some data) (Some k0) ent = (ls, None, drop (marker_count T) ent) ∧
    ls `sublist_of`
      flat_map (λ line, if contains marker line then splitlines data else [line]) T.
Proof.
  induction T as [|line T IH]; intros ent Hk.
  - exists []. split; [done|constructor].
  - cbn [plan flat_map]. unfold chunk. rewrite marker_count_cons.
    destruct (contains marker line).
    + cbn [block]. rewrite decide_True by done.
      destruct (IH (tl ent) Hk) as (ls & -> & Hsub).
      eexists. split; [by rewrite drop_tail|].
      apply sublist_app; [apply selected_sublist|done].
    + destruct (IH ent Hk) as (ls & -> & Hsub).
      eexists. split; [done|]. by apply sublist_skip.
Qed.

(** With sample size 0 the marker lines vanish. *)
Lemma plan_sample_none T data : ∀ ent,
  Forall (valid_sample num_packages 0) ent ->
  plan T (Some data) (Some 0) ent
  = (filter (λ line, contains marker line = false) T, None,
     drop (marker_count T) ent).
Proof.
  induction T as [|line T IH]; intros ent Hent; [done|].
  cbn [plan]. unfold chunk. rewrite marker_count_cons, filter_cons.
  destruct (contains marker line).
  - cbn [block]. rewrite decide_True by (unfold num_packages; lia).
    assert (hd [] ent = []) as ->.
    { destruct Hent as [|d ent [Hlen _] _]; [done|].
      apply nil_length_inv. simpl. lia. }
    assert (Forall (valid_sample num_packages 0) (tl ent)) as Htl
      by (destruct Hent; [constructor|done]).
    rewrite (IH _ Htl), decide_False by done.
    change (list_to_set []) with (∅ : gset Z).
    by rewrite selected_empty, drop_tail.
  - rewrite (IH _ Hent), decide_True by done. done.
Qed.

(** A page completes exactly when no block raises. *)
Lemma plan_completes T data k ent :
  (plan T data k ent).1.2 = None <->
  Forall (λ line, ¬ marker_line line) T ∨ (is_Some data ∧ in_range k).
Proof.
  revert ent; induction T as [|line T IH]; intros ent.
  - split; [left; constructor|done].
  - cbn [plan]. unfold chunk.
    destruct (contains marker line) eqn:Hc.
    + assert (¬ Forall (λ l, ¬ marker_line l) (line :: T)) as Hno.
      { intros Hall. apply Forall_cons_1 in Hall as [Hline _].
        by apply Hline, marker_line_spec. }
      unfold block.
      destruct k as [k0|]; [destruct (decide (0 <= k0 <= num_packages))|];
        destruct data as [text|]; cbn [fst snd in_range];
        try (split; [done|intros [?|[[? ?] ?]]; done]).
      * specialize (IH (tl ent)).
        destruct (plan T (Some text) (Some k0) (tl ent)) as [[ls e] ent'].
        cbn [fst snd] in *. rewrite IH.
        split; [|intros _]; right; (split; [by eexists|done]).
      * specialize (IH ent).
        destruct (plan T (Some text) None ent) as [[ls e] ent'].
        cbn [fst snd] in *. rewrite IH.
        split; [|intros _]; right; (split; [by eexists|done]).
    + specialize (IH ent).
      destruct (plan T data k ent) as [[ls e] ent'].
      cbn [fst snd] in *. rewrite IH, Forall_cons.
      assert (¬ marker_line line) as Hline
        by (rewrite <- marker_line_spec; congruence).
      tauto.
Qed.

Lemma selected_valid_length (lines : list string) n k draw :
  valid_sample n k draw ->
  Z.of_nat (length lines) = n ->
  Z.of_nat (length (selected (list_to_set draw) 0 lines)) = k.
Proof.
  intros Hvalid Hn.
  destruct (valid_sample_set _ _ _ Hvalid) as [Hsize Hrange].
  rewrite length_selected, Hn, length_chosen_all; [done|].
  intros i Hi. specialize (Hrange i Hi). lia.
Qed.

(** With a data file of [num_packages] lines and valid draws, every
    marker line gives way to exactly [k0] lines. *)
Lemma plan_sample_count T data (k0 : Z) : ∀ ent,
  0 <= k0 <= num_packages ->
  Z.of_nat (length (splitlines data)) = num_packages ->
  Forall (valid_sample num_packages k0) ent ->
  (marker_count T <= length ent)%nat ->
  Z.of_nat (length (plan T (Some data) (Some k0) ent).1.1)
  = Z.of_nat (length T - marker_count T) + Z.of_nat (marker_count T) * k0.
Proof.
  induction T as [|line T IH]; intros ent Hk Hn Hent Hlen; [done|].
  assert (marker_count T <= length T)%nat as Hle
    by apply length_filter.
  cbn [plan]. unfold chunk. rewrite marker_count_cons in *.
  destruct (contains marker line).
  - cbn [block]. rewrite decide_True by done.
    destruct Hent as [|d ent Hd Hent]; [simpl in Hlen; lia|].
    cbn [hd tl]. specialize (IH ent Hk Hn Hent).
    destruct (plan T (Some data) (Some k0) ent) as [[ls e] ent'].
    cbn [fst snd] in *. rewrite length_app, Nat2Z.inj_add.
    rewrite (selected_valid_length _ num_packages k0) by done.
    rewrite IH by (simpl in Hlen; lia). simpl length. lia.
  - specialize (IH ent Hk Hn Hent Hlen).
    destruct (plan T (Some data) (Some k0) ent) as [[ls e] ent'].
    cbn [fst snd] in *. simpl length. lia.
Qed.
End SamplingMode.

(** * The claims *)

(** C1.  Full mode: with the template and the data file in place, an
    output path that is a third, writable file and a device that does
    not fail, [generate_page filename None] succeeds and leaves in the
    output the template in which every line containing the marker has
    given way to all the lines of the data file, in file order, every
    other line being copied as it is.  Nothing else of the world
    changes. *)
Theorem render_full (filename template data : string) (w : world) :
  files w !! template_filename = Some template ->
  files w !! data_filename = Some data ->
  filename ∉ readonly w ->
  filename ≠ template_filename ->
  filename ≠ data_filename ->
  writes_left w = None ->
  generate_page filename None w
  = (Ok tt, set_files (<[filename := join (page_lines template data)]> (files w)) w).
Proof.
  intros Ht Hd Hro Hnt Hnd Hq.
  rewrite (generate_page_full filename template data) by (by rewrite ?Hq).
  f_equal. apply world_ext; try done. simpl. by rewrite Hq.
Qed.

(** An instance of C1. *)
Lemma render_full_witness :
  generate_page "out.html" None (example_world [])
  = (Ok tt,
     set_files
       (<["out.html" := join (page_lines example_template example_data)]>
          (files (example_world [])))
       (example_world [])).
Proof.
  apply (render_full "out.html" example_template example_data (example_world []));
    [reflexivity | reflexivity | apply not_elem_of_empty
    | discriminate | discriminate | reflexivity].
Defined.

(** C2.  When the data file has exactly [num_packages] lines and [k]
    is in range, [sample_data k], run to its end, yields exactly [k]
    lines: the lines of the data file at the drawn indices, each index
    once, in ascending order of index.  For [k = 0] it yields nothing,
    for [k = num_packages] the whole data file in order. *)
Theorem emit_sample_exact (k : Z) (text : string) (draw : list Z)
    (rest : list (list Z)) (w : world) :
  files w !! data_filename = Some text ->
  Z.of_nat (length (splitlines text)) = num_packages ->
  0 <= k <= num_packages ->
  entropy w = draw :: rest ->
  valid_sample num_packages k draw ->
  ∃ idx ys,
    collect (sample_data k) w = (Ok ys, set_entropy rest w) ∧
    Z.of_nat (length ys) = k ∧
    StronglySorted Z.lt idx ∧
    (∀ i, i ∈ idx <-> i ∈ draw) ∧
    Forall2 (λ i y, 0 <= i ∧ splitlines text !! Z.to_nat i = Some y) idx ys ∧
    (k = 0 -> ys = []) ∧
    (k = num_packages -> ys = splitlines text).
Proof.
  intros Hdata Hlines Hk Hent Hvalid.
  destruct (valid_sample_set _ _ _ Hvalid) as [Hsize Hrange].
  set (indices := list_to_set draw : gset Z) in *.
  exists (chosen indices 0 num_packages), (selected indices 0 (splitlines text)).
  assert (length (selected indices 0 (splitlines text)) = size indices) as Hlen.
  { rewrite length_selected, Hlines. apply length_chosen_all.
    intros i Hi. specialize (Hrange i Hi). lia. }
  split_and!.
  - rewrite (collect_sample_data k text) by done. by rewrite Hent.
  - by rewrite Hlen.
  - apply chosen_sorted.
  - intros i. rewrite elem_of_chosen. unfold indices.
    rewrite elem_of_list_to_set. split; [by intros [? ?]|].
    intros Hi. split; [done|].
    assert (i ∈ indices) as Hi' by by apply elem_of_list_to_set.
    specialize (Hrange i Hi'). lia.
  - rewrite <- Hlines. eapply Forall2_impl; [apply selected_chosen|].
    intros i y [Hi Hy]. split; [done|]. by rewrite Z.sub_0_r in Hy.
  - intros ->. apply nil_length_inv. lia.
  - intros ->. apply selected_all. intros i Hi.
    (* a set of [n] elements of a range of [n] elements is the range *)
    assert (indices = list_to_set (seqZ 0 num_packages)) as ->.
    { apply set_eq. intros j. rewrite elem_of_list_to_set, elem_of_seqZ.
      split; [intros Hj; specialize (Hrange j Hj); lia|]. intros Hj.
      destruct (decide (j ∈ indices)) as [|Hnot]; [done|exfalso].
      assert (indices ⊆ list_to_set (seqZ 0 num_packages) ∖ {[j]}) as Hsub.
      { intros x Hx. rewrite elem_of_difference, elem_of_list_to_set, elem_of_seqZ.
        split; [specialize (Hrange x Hx); lia|].
        rewrite elem_of_singleton. intros ->. done. }
      apply subseteq_size in Hsub.
      rewrite size_difference in Hsub.
      2:{ apply singleton_subseteq_l. rewrite elem_of_list_to_set, elem_of_seqZ. lia. }
      rewrite size_singleton, size_list_to_set, length_seqZ in Hsub by apply NoDup_seqZ.
      lia. }
    rewrite elem_of_list_to_set, elem_of_seqZ. lia.
Qed.

(** An instance of C2. *)
Lemma emit_sample_exact_witness :
  ∃ idx ys,
    collect (sample_data 2) (long_world [[7; 3]])
    = (Ok ys, set_entropy [] (long_world [[7; 3]])) ∧
    Z.of_nat (length ys) = 2 ∧
    StronglySorted Z.lt idx ∧
    (∀ i, i ∈ idx <-> i ∈ [7; 3]) ∧
    Forall2 (λ i y, 0 <= i ∧ splitlines long_data !! Z.to_nat i = Some y) idx ys ∧
    (2 = 0 -> ys = []) ∧
    (2 = num_packages -> ys = splitlines long_data).
Proof.
  apply (emit_sample_exact 2 long_data [7; 3] [] (long_world [[7; 3]])).
  - apply lookup_insert_eq.
  - vm_compute. reflexivity.
  - unfold num_packages. lia.
  - reflexivity.
  - split_and!.
    + reflexivity.
    + apply (bool_decide_unpack _). vm_compute. exact I.
    + unfold num_packages. repeat constructor; lia.
Defined.

(** C3.  [sample_data k], once run, raises [ValueError] exactly when
    [k] is negative or exceeds [num_packages]; for [k] in range and a
    data file in place it runs to its end without exception. *)
Theorem emit_sample_invalid_argument (k : Z) (w : world) :
  ((∃ w', collect (sample_data k) w = (Err ValueError, w'))
   <-> k < 0 ∨ num_packages < k) ∧
  (0 <= k <= num_packages ->
   is_Some (files w !! data_filename) ->
   ∃ ys, collect (sample_data k) w = (Ok ys, set_entropy (tl (entropy w)) w)).
Proof.
  split; [split|].
  - intros [w' Hrun]. destruct (decide (0 <= k <= num_packages)) as [Hk|Hk]; [|lia].
    destruct (files w !! data_filename) as [text|] eqn:Hdata.
    + by rewrite (collect_sample_data k text) in Hrun.
    + by rewrite collect_sample_data_missing in Hrun.
  - intros Hk. exists w. by apply collect_sample_data_invalid.
  - intros Hk [text Hdata]. eexists. by apply collect_sample_data.
Qed.

(** An instance of C3. *)
Lemma emit_sample_invalid_argument_witness :
  (∃ w', collect (sample_data (-1)) (example_world []) = (Err ValueError, w')) ∧
  (∃ ys, collect (sample_data 2) (example_world [[2; 0]])
         = (Ok ys, set_entropy (tl (entropy (example_world [[2; 0]])))
                     (example_world [[2; 0]]))).
Proof.
  split.
  - apply (proj1 (emit_sample_invalid_argument (-1) (example_world []))).
    left. lia.
  - apply (proj2 (emit_sample_invalid_argument 2 (example_world [[2; 0]]))).
    + unfold num_packages. lia.
    + eexists. reflexivity.
Defined.



(** C5.  Full mode has no randomness: a second run of
    [generate_page filename None] after the first leaves the world as
    the first left it, and the output is the same whatever the random
    generator holds. *)
Theorem render_full_twice (filename template data : string) (w : world) :
  files w !! template_filename = Some template ->
  files w !! data_filename = Some data ->
  filename ∉ readonly w ->
  filename ≠ template_filename ->
  filename ≠ data_filename ->
  writes_left w = None ->
  ∃ w1,
    generate_page filename None w = (Ok tt, w1) ∧
    generate_page filename None w1 = (Ok tt, w1) ∧
    ∀ ent, ∃ w2,
      generate_page filename None (set_entropy ent w) = (Ok tt, w2) ∧
      files w2 !! filename = files w1 !! filename.
Proof.
  intros Ht Hd Hro Hnt Hnd Hq.
  exists (set_files (<[filename := join (page_lines template data)]> (files w)) w).
  assert (∀ w0, files w0 = files w -> readonly w0 = readonly w ->
                handles w0 = handles w -> writes_left w0 = None ->
                generate_page filename None w0
                = (Ok tt,
                   World (<[filename := join (page_lines template data)]> (files w))
                     (readonly w) (handles w) None (entropy w0))) as Hrun.
  { intros w0 Hf Hr Hh Hq0.
    rewrite (generate_page_full filename template data w0);
      rewrite ?Hf, ?Hr, ?Hq0; try done.
    by rewrite Hh. }
  split_and!.
  - rewrite Hrun by done. f_equal. by apply world_ext.
  - rewrite (generate_page_full filename template data); simpl;
      rewrite ?lookup_insert_ne, ?Hq; try done.
    f_equal. apply world_ext; try done. simpl. apply insert_insert_eq.
  - intros ent. eexists. split; [by apply Hrun|].
    simpl. by rewrite !lookup_insert_eq.
Qed.

(** An instance of C5. *)
Lemma render_full_twice_witness :
  ∃ w1,
    generate_page "out.html" None (example_world [[1]]) = (Ok tt, w1) ∧
    generate_page "out.html" None w1 = (Ok tt, w1) ∧
    ∀ ent, ∃ w2,
      generate_page "out.html" None (set_entropy ent (example_world [[1]]))
      = (Ok tt, w2) ∧
      files w2 !! "out.html" = files w1 !! "out.html".
Proof.
  apply (render_full_twice "out.html" example_template example_data
           (example_world [[1]]));
    [reflexivity | reflexivity | apply not_elem_of_empty
    | discriminate | discriminate | reflexivity].
Defined.

(** C6.  A line of the template is substituted exactly when the marker
    is a substring of it, and every such line is: the output is the
    concatenation, line of the template by line, of a data block where
    the line contains the marker and of the line itself where it does
    not. *)
Theorem render_substitutes_at_each_marker (filename : string) (k : option Z)
    (template data : string) (w : world) :
  files w !! template_filename = Some template ->
  files w !! data_filename = Some data ->
  filename ∉ readonly w ->
  filename ≠ template_filename ->
  filename ≠ data_filename ->
  writes_left w = None ->
  match k with Some k => 0 <= k <= num_packages | None => True end ->
  ∃ blocks w',
    generate_page filename k w = (Ok tt, w') ∧
    files w' !! filename = Some (join (concat blocks)) ∧
    Forall2 (λ line b, (marker_line line ∧ data_block data k b) ∨
                       (¬ marker_line line ∧ b = [line]))
      (splitlines template) blocks.
Proof.
  intros Ht Hd Hro Hnt Hnd Hq Hk.
  destruct (plan_blocks (splitlines template) data k (entropy w) Hk)
    as (blocks & ent' & Hplan & Hall).
  exists blocks,
    (World (<[filename := join (concat blocks)]> (files w)) (readonly w)
       (handles w) (spend (length (concat blocks)) (writes_left w)) ent').
  split_and!; [|apply lookup_insert_eq|done].
  apply (generate_page_fits filename k template w Ht Hro Hnt Hnd
           (concat blocks) None ent'); [|by rewrite Hq].
  by rewrite Hd.
Qed.

(** An instance of C6. *)
Lemma render_substitutes_at_each_marker_witness :
  ∃ blocks w',
    generate_page "out.html" (Some 2) (example_world [[2; 0]]) = (Ok tt, w') ∧
    files w' !! "out.html" = Some (join (concat blocks)) ∧
    Forall2 (λ line b, (marker_line line ∧ data_block example_data (Some 2) b) ∨
                       (¬ marker_line line ∧ b = [line]))
      (splitlines example_template) blocks.
Proof.
  apply (render_substitutes_at_each_marker "out.html" (Some 2)
           example_template example_data (example_world [[2; 0]]));
    [reflexivity | reflexivity | apply not_elem_of_empty
    | discriminate | discriminate | reflexivity | unfold num_packages; lia].
Defined.


(** C8.  Exceptions reach the caller of [generate_page] as they are,
    and what was written stays written.  A missing template or an output
    that cannot be created leaves the world untouched; a missing data
    file or a sample size out of range ends the run at the first marker
    line, the output holding the lines before it; a write the device
    refuses ends the run with the output holding exactly the lines
    written before it. *)
Theorem render_errors_propagate (filename : string) (k : option Z) (w : world) :
  filename ≠ template_filename ->
  filename ≠ data_filename ->
  (files w !! template_filename = None ->
   generate_page filename k w = (Err FileNotFoundError, w)) ∧
  (is_Some (files w !! template_filename) ->
   filename ∈ readonly w ->
   generate_page filename k w = (Err OSError, w)) ∧
  (∀ template pre line post,
     files w !! template_filename = Some template ->
     filename ∉ readonly w ->
     splitlines template = (pre ++ line :: post)%list ->
     Forall (λ l, ¬ marker_line l) pre ->
     marker_line line ->
     fits (writes_left w) (length pre) ->
     (files w !! data_filename = None ->
      match k with Some k => 0 <= k <= num_packages | None => True end ->
      ∃ w', generate_page filename k w = (Err FileNotFoundError, w') ∧
            files w' = <[filename := join pre]> (files w)) ∧
     (∀ k0, k = Some k0 -> k0 < 0 ∨ num_packages < k0 ->
      ∃ w', generate_page filename k w = (Err ValueError, w') ∧
            files w' = <[filename := join pre]> (files w))) ∧
  (∀ template data q,
     files w !! template_filename = Some template ->
     files w !! data_filename = Some data ->
     filename ∉ readonly w ->
     k = None ->
     writes_left w = Some q ->
     (q < length (page_lines template data))%nat ->
     ∃ w', generate_page filename k w = (Err OSError, w') ∧
           files w' = <[filename := join (take q (page_lines template data))]>
                        (files w)) ∧
  (∀ template ls e ent q,
     files w !! template_filename = Some template ->
     filename ∉ readonly w ->
     plan (splitlines template) (files w !! data_filename) k (entropy w)
     = (ls, e, ent) ->
     writes_left w = Some q ->
     (q < length ls)%nat ->
     ∃ w', generate_page filename k w = (Err OSError, w') ∧
           files w' = <[filename := join (take q ls)]> (files w)).
Proof.
  intros Hnt Hnd.
  assert (∀ template ls e ent q,
     files w !! template_filename = Some template ->
     filename ∉ readonly w ->
     plan (splitlines template) (files w !! data_filename) k (entropy w)
     = (ls, e, ent) ->
     writes_left w = Some q ->
     (q < length ls)%nat ->
     ∃ w', generate_page filename k w = (Err OSError, w') ∧
           files w' = <[filename := join (take q ls)]> (files w)) as Hshort.
  { intros template ls e ent q Ht Hro Hplan Hq Hlt.
    destruct (generate_page_short filename k template w Ht Hro Hnt Hnd
                ls e ent Hplan) as (w' & Hrun & Hfiles & _).
    - rewrite Hq. simpl. lia.
    - exists w'. split; [done|]. by rewrite Hfiles, Hq. }
  assert (∀ template pre line post e ent',
     files w !! template_filename = Some template ->
     filename ∉ readonly w ->
     splitlines template = (pre ++ line :: post)%list ->
     Forall (λ l, ¬ marker_line l) pre ->
     marker_line line ->
     fits (writes_left w) (length pre) ->
     block (files w !! data_filename) k (entropy w) = ([], Some e, ent') ->
     ∃ w', generate_page filename k w = (Err e, w') ∧
           files w' = <[filename := join pre]> (files w)) as Hblock.
  { intros template pre line post e ent' Ht Hro Hsplit Hpre Hline Hfits Hb.
    exists (World (<[filename := join pre]> (files w)) (readonly w) (handles w)
              (spend (length pre) (writes_left w)) ent').
    split; [|done].
    apply (generate_page_fits filename k template w Ht Hro Hnt Hnd
             pre (Some e) ent'); [|done].
    rewrite Hsplit. by apply plan_stops. }
  split_and!.
  - apply generate_page_no_template.
  - intros [template Ht]. by apply (generate_page_readonly filename k template).
  - intros template pre line post Ht Hro Hsplit Hpre Hline Hfits. split.
    + intros Hd Hk. rewrite Hd in Hblock.
      apply (Hblock template pre line post FileNotFoundError
               (match k with Some _ => tl (entropy w) | None => entropy w end));
        try done.
      unfold block. destruct k as [k0|]; [|done]. by rewrite decide_True.
    + intros k0 -> Hk0.
      apply (Hblock template pre line post ValueError (entropy w)); try done.
      unfold block. rewrite decide_False; [done|lia].
  - intros template data q Ht Hd Hro -> Hq Hlt.
    apply (Hshort template _ None (entropy w)); try done.
    rewrite Hd. apply plan_full.
  - apply Hshort.
Qed.

(** An instance of C8. *)
Lemma render_errors_propagate_witness :
  generate_page "out.html" None empty_world = (Err FileNotFoundError, empty_world) ∧
  generate_page "out.html" None readonly_world = (Err OSError, readonly_world) ∧
  (∃ w', generate_page "out.html" None no_data_world
         = (Err FileNotFoundError, w') ∧
         files w' = <["out.html" := join ["X" +:+ nl]]> (files no_data_world)) ∧
  (∃ w', generate_page "out.html" (Some (-1)) (example_world [])
         = (Err ValueError, w') ∧
         files w' = <["out.html" := join ["X" +:+ nl]]> (files (example_world []))) ∧
  (∃ w', generate_page "out.html" None (full_disk_world 2) = (Err OSError, w') ∧
         files w'
         = <["out.html" := join (take 2 (page_lines example_template example_data))]>
             (files (full_disk_world 2))) ∧
  (∃ w', generate_page "out.html" (Some 0) (full_disk_world 1) = (Err OSError, w') ∧
         files w'
         = <["out.html" := join (take 1 ["X" +:+ nl; "Y" +:+ nl])]>
             (files (full_disk_world 1))).
Proof.
  assert ("out.html" ≠ template_filename) as Hnt by discriminate.
  assert ("out.html" ≠ data_filename) as Hnd by discriminate.
  assert (Forall (λ l, ¬ marker_line l) ["X" +:+ nl]) as Hpre
    by (apply no_marker_lines; reflexivity).
  assert (marker_line ("DATA" +:+ nl)) as Hline
    by (apply marker_line_spec; reflexivity).
  split_and!.
  - apply (render_errors_propagate "out.html" None empty_world Hnt Hnd).
    reflexivity.
  - apply (render_errors_propagate "out.html" None readonly_world Hnt Hnd).
    + eexists. reflexivity.
    + exact (proj2 (elem_of_singleton (C := gset string) _ _) eq_refl).
  - apply (proj1 (proj2 (proj2 (render_errors_propagate "out.html" None
                                  no_data_world Hnt Hnd)))
             example_template ["X" +:+ nl] ("DATA" +:+ nl) ["Y" +:+ nl]);
      [reflexivity | apply not_elem_of_empty | reflexivity | exact Hpre
      | exact Hline | exact I | reflexivity | exact I].
  - apply (proj1 (proj2 (proj2 (render_errors_propagate "out.html" (Some (-1))
                                  (example_world []) Hnt Hnd)))
             example_template ["X" +:+ nl] ("DATA" +:+ nl) ["Y" +:+ nl])
      with (k0 := -1);
      [reflexivity | apply not_elem_of_empty | reflexivity | exact Hpre
      | exact Hline | exact I | reflexivity | left; lia].
  - apply (proj1 (proj2 (proj2 (proj2 (render_errors_propagate "out.html" None
                                         (full_disk_world 2) Hnt Hnd))))
             example_template example_data 2%nat);
      [reflexivity | reflexivity | apply not_elem_of_empty | reflexivity
      | reflexivity | vm_compute; lia].
  - apply (proj2 (proj2 (proj2 (proj2 (render_errors_propagate "out.html" (Some 0)
                                         (full_disk_world 1) Hnt Hnd))))
             example_template ["X" +:+ nl; "Y" +:+ nl] None [] 1%nat);
      [reflexivity | apply not_elem_of_empty | reflexivity | reflexivity
      | simpl; lia].
Defined.

(** C9.  When the data file has fewer lines than [num_packages],
    [sample_data k] with [k] in range still runs to its end without
    exception and yields the lines at the drawn indices that fall inside
    the file, in ascending order of index: at most [k] lines, fewer
    when an index was drawn beyond the end of the file. *)
Theorem emit_sample_short_file (k : Z) (text : string) (draw : list Z)
    (rest : list (list Z)) (w : world) :
  files w !! data_filename = Some text ->
  Z.of_nat (length (splitlines text)) < num_packages ->
  0 <= k <= num_packages ->
  entropy w = draw :: rest ->
  valid_sample num_packages k draw ->
  ∃ idx ys,
    collect (sample_data k) w = (Ok ys, set_entropy rest w) ∧
    StronglySorted Z.lt idx ∧
    (∀ i, i ∈ idx <-> i ∈ draw ∧ i < Z.of_nat (length (splitlines text))) ∧
    Forall2 (λ i y, 0 <= i ∧ splitlines text !! Z.to_nat i = Some y) idx ys ∧
    Z.of_nat (length ys) <= k.
Proof.
  intros Hdata Hlines Hk Hent Hvalid.
  destruct (valid_sample_set _ _ _ Hvalid) as [Hsize Hrange].
  set (indices := list_to_set draw : gset Z) in *.
  set (m := Z.of_nat (length (splitlines text))) in *.
  exists (chosen indices 0 m), (selected indices 0 (splitlines text)).
  split_and!.
  - rewrite (collect_sample_data k text) by done. by rewrite Hent.
  - apply chosen_sorted.
  - intros i. rewrite elem_of_chosen. unfold indices.
    rewrite elem_of_list_to_set. split; [intros [? ?]; split; [done|lia]|].
    intros [Hi Him]. split; [done|].
    assert (i ∈ indices) as Hi' by by apply elem_of_list_to_set.
    specialize (Hrange i Hi'). lia.
  - eapply Forall2_impl; [apply selected_chosen|].
    intros i y [Hi Hy]. split; [done|]. by rewrite Z.sub_0_r in Hy.
  - rewrite length_selected. fold m. rewrite <- Hsize. apply inj_le.
    rewrite <- (size_list_to_set (C := gset Z))
      by apply NoDup_filter, NoDup_seqZ.
    apply subseteq_size. intros i. rewrite elem_of_list_to_set.
    fold (chosen indices 0 m). rewrite elem_of_chosen. by intros [? ?].
Qed.

(** An instance of C9. *)
Lemma emit_sample_short_file_witness :
  ∃ idx ys,
    collect (sample_data 2) (example_world [[5; 0]])
    = (Ok ys, set_entropy [] (example_world [[5; 0]])) ∧
    StronglySorted Z.lt idx ∧
    (∀ i, i ∈ idx <-> i ∈ [5; 0] ∧ i < Z.of_nat (length (splitlines example_data))) ∧
    Forall2 (λ i y, 0 <= i ∧ splitlines example_data !! Z.to_nat i = Some y) idx ys ∧
    Z.of_nat (length ys) <= 2.
Proof.
  apply (emit_sample_short_file 2 example_data [5; 0] [] (example_world [[5; 0]])).
  - reflexivity.
  - vm_compute. reflexivity.
  - unfold num_packages. lia.
  - reflexivity.
  - split_and!.
    + reflexivity.
    + apply (bool_decide_unpack _). vm_compute. exact I.
    + unfold num_packages. repeat constructor; lia.
Defined.

(** C10.  For [k] out of range the call [sample_data(k)] itself
    returns a generator and touches nothing: no file is opened, [k] is
    not looked at.  [ValueError] is raised when the generator is first
    advanced, before any file is opened. *)
Theorem emit_sample_fails_lazily (k : Z) (w : world) :
  k < 0 ∨ num_packages < k ->
  call_generator (sample_data k) w = (Ok (sample_data k), w) ∧
  next (sample_data k) w = (Err ValueError, w).
Proof.
  intros Hk. split; [done|].
  unfold sample_data. cbn [next exec]. by rewrite do_random_sample_invalid.
Qed.

(** An instance of C10. *)
Lemma emit_sample_fails_lazily_witness :
  call_generator (sample_data (-1)) (example_world [])
  = (Ok (sample_data (-1)), example_world []) ∧
  next (sample_data (-1)) (example_world []) = (Err ValueError, example_world []).
Proof.
  apply (emit_sample_fails_lazily (-1) (example_world [])). left. lia.
Defined.

(** * Further properties of the script *)

(** X1.  [get_data], run to its end, yields the lines of the data file
    in file order, which concatenate to the text of the file, and leaves
    the world as it found it, the reader closed.  Without the data file
    it raises [FileNotFoundError] and changes nothing. *)
Theorem get_data_yields_file (w : world) :
  (∀ text, files w !! data_filename = Some text ->
           collect get_data w = (Ok (splitlines text), w) ∧
           join (splitlines text) = text) ∧
  (files w !! data_filename = None ->
   collect get_data w = (Err FileNotFoundError, w)).
Proof.
  split.
  - intros text Hdata. split; [|apply join_splitlines].
    unfold get_data. cbn [collect exec]. unfold bind at 1.
    erewrite do_open_read by exact Hdata.
    unfold bind at 1. erewrite do_readlines_ok;
      [|apply lookup_insert_eq|exact Hdata].
    rewrite collect_yields. cbn. rewrite app_nil_r. f_equal.
    apply world_ext; try done. simpl.
    by rewrite delete_insert_id by apply fresh_handle_free.
  - intros Hdata. unfold get_data. cbn [collect exec]. unfold bind at 1.
    by rewrite do_open_read_missing.
Qed.

(** An instance of X1. *)
Lemma get_data_yields_file_witness :
  (collect get_data (example_world []) = (Ok (splitlines example_data), example_world [])
   ∧ join (splitlines example_data) = example_data) ∧
  collect get_data no_data_world = (Err FileNotFoundError, no_data_world).
Proof.
  split.
  - apply (proj1 (get_data_yields_file (example_world []))). reflexivity.
  - apply (proj2 (get_data_yields_file no_data_world)). reflexivity.
Defined.

(** X2.  A generator of [get_data] that has yielded its first line is
    suspended with the data file open: the world is the one with a
    reader left open.  Running it to its end yields the remaining lines
    and closes the reader.  On an empty data file the first advance
    ends the generator and closes the reader at once. *)
Theorem get_data_suspended_holds_file (text : string) (w : world) :
  files w !! data_filename = Some text ->
  match splitlines text with
  | [] => next get_data w = (Ok None, w)
  | line :: rest =>
      ∃ g, next get_data w = (Ok (Some (line, g)), leaked w) ∧
           collect g (leaked w) = (Ok rest, w)
  end.
Proof.
  intros Hdata.
  unfold get_data. cbn [next exec].
  erewrite do_open_read by exact Hdata. fold (leaked w).
  erewrite do_readlines_ok; [|apply lookup_insert_eq|exact Hdata].
  destruct (splitlines text) as [|line rest].
  - cbn. f_equal. apply world_ext; try done. simpl.
    by rewrite delete_insert_id by apply fresh_handle_free.
  - exists (foldr Yield (Do (c_close (fresh (dom (handles w)))) (fun _ => Stop))
              rest).
    split; [reflexivity|].
    rewrite collect_yields. cbn. rewrite app_nil_r. f_equal.
    apply world_ext; try done. simpl.
    by rewrite delete_insert_id by apply fresh_handle_free.
Qed.

(** An instance of X2. *)
Lemma get_data_suspended_holds_file_witness :
  match splitlines example_data with
  | [] => next get_data (example_world []) = (Ok None, example_world [])
  | line :: rest =>
      ∃ g, next get_data (example_world [])
           = (Ok (Some (line, g)), leaked (example_world [])) ∧
           collect g (leaked (example_world [])) = (Ok rest, example_world [])
  end.
Proof.
  apply (get_data_suspended_holds_file example_data (example_world [])).
  reflexivity.
Defined.

(** X3.  Whatever [random.sample] returns, [sample_data] with [k] in
    range yields lines of the data file only, each at most once and in
    file order: a sublist of the lines of the file. *)
Theorem sample_data_sublist (k : Z) (text : string) (w : world) :
  files w !! data_filename = Some text ->
  0 <= k <= num_packages ->
  ∃ ys, collect (sample_data k) w = (Ok ys, set_entropy (tl (entropy w)) w) ∧
        ys `sublist_of` splitlines text.
Proof.
  intros Hdata Hk. eexists. split; [by apply collect_sample_data|].
  apply selected_sublist.
Qed.

(** An instance of X3. *)
Lemma sample_data_sublist_witness :
  ∃ ys, collect (sample_data 3) (example_world [[1; 1; 9; -4]])
        = (Ok ys, set_entropy (tl (entropy (example_world [[1; 1; 9; -4]])))
                    (example_world [[1; 1; 9; -4]])) ∧
        ys `sublist_of` splitlines example_data.
Proof.
  apply (sample_data_sublist 3 example_data (example_world [[1; 1; 9; -4]]));
    [reflexivity | unfold num_packages; lia].
Defined.

(** X4.  Line 16 turns the draw into a set: two draws with the same
    elements, in whatever order and with whatever repetitions, give the
    same outcome of [sample_data]. *)
Theorem sample_data_draw_order_irrelevant (k : Z) (d1 d2 : list Z)
    (rest1 rest2 : list (list Z)) (w : world) :
  (∀ i, i ∈ d1 <-> i ∈ d2) ->
  fst (collect (sample_data k) (set_entropy (d1 :: rest1) w))
  = fst (collect (sample_data k) (set_entropy (d2 :: rest2) w)).
Proof.
  intros Hsame.
  destruct (decide (0 <= k <= num_packages)) as [Hk|Hk].
  - destruct (files w !! data_filename) as [text|] eqn:Hdata.
    + rewrite !(collect_sample_data k text) by done. simpl. do 2 f_equal.
      apply set_eq. intros i. by rewrite !elem_of_list_to_set.
    + by rewrite !collect_sample_data_missing.
  - rewrite !collect_sample_data_invalid by lia. done.
Qed.

(** An instance of X4. *)
Lemma sample_data_draw_order_irrelevant_witness :
  fst (collect (sample_data 2) (set_entropy ([2; 0] :: []) (example_world [])))
  = fst (collect (sample_data 2) (set_entropy ([0; 2; 0] :: [[1]]) (example_world []))).
Proof.
  apply (sample_data_draw_order_irrelevant 2 [2; 0] [0; 2; 0] [] [[1]]
           (example_world [])).
  intros i. rewrite !elem_of_cons. tauto.
Defined.

(** X5.  [sample_data] draws before it opens the data file: with [k]
    in range and no data file, the first advance raises
    [FileNotFoundError] after one draw has been taken from the random
    generator, and no file is open. *)
Theorem sample_data_draws_before_open (k : Z) (w : world) :
  0 <= k <= num_packages ->
  files w !! data_filename = None ->
  next (sample_data k) w
  = (Err FileNotFoundError, set_entropy (tl (entropy w)) w).
Proof.
  intros Hk Hdata. unfold sample_data. cbn [next exec].
  rewrite do_random_sample_ok by done. cbv zeta. cbn [next exec].
  by rewrite do_open_read_missing.
Qed.

(** An instance of X5. *)
Lemma sample_data_draws_before_open_witness :
  next (sample_data 2) (set_entropy [[2; 0]; [1; 0]] no_data_world)
  = (Err FileNotFoundError,
     set_entropy (tl (entropy (set_entropy [[2; 0]; [1; 0]] no_data_world)))
       (set_entropy [[2; 0]; [1; 0]] no_data_world)).
Proof.
  apply (sample_data_draws_before_open 2
           (set_entropy [[2; 0]; [1; 0]] no_data_world));
    [unfold num_packages; lia | reflexivity].
Defined.

(** X6.  Whatever the outcome of [generate_page], the template and the
    output are closed when it returns: the table of open files is the
    one before the call, or that one with a single reader of the data
    file more. *)
Theorem generate_page_closes_its_files (filename : string) (k : option Z)
    (w : world) :
  filename ≠ template_filename ->
  filename ≠ data_filename ->
  handles (generate_page filename k w).2 = handles w ∨
  ∃ fd, handles w !! fd = None ∧
        handles (generate_page filename k w).2
        = <[fd := Handle data_filename ModeR]> (handles w).
Proof.
  intros Hnt Hnd.
  apply (generate_page_closes filename k w (generate_page filename k w).1);
    [done..|].
  by destruct (generate_page filename k w).
Qed.

(** An instance of X6. *)
Lemma generate_page_closes_its_files_witness :
  handles (generate_page "out.html" None (full_disk_world 2)).2
  = handles (full_disk_world 2) ∨
  ∃ fd, handles (full_disk_world 2) !! fd = None ∧
        handles (generate_page "out.html" None (full_disk_world 2)).2
        = <[fd := Handle data_filename ModeR]> (handles (full_disk_world 2)).
Proof.
  apply (generate_page_closes_its_files "out.html" None (full_disk_world 2));
    discriminate.
Defined.

(** X7.  A call of [generate_page] that succeeds leaves no file open:
    the table of open files is the one before the call. *)
Theorem generate_page_success_closes_all (filename : string) (k : option Z)
    (w : world) :
  filename ≠ template_filename ->
  filename ≠ data_filename ->
  (generate_page filename k w).1 = Ok tt ->
  handles (generate_page filename k w).2 = handles w.
Proof.
  intros Hnt Hnd Hok.
  apply (generate_page_closes_on_success filename k w); [done..|].
  destruct (generate_page filename k w) as [r w']. simpl in *. by subst.
Qed.

(** An instance of X7. *)
Lemma generate_page_success_closes_all_witness :
  handles (generate_page "out.html" (Some 2) (example_world [[2; 0]])).2
  = handles (example_world [[2; 0]]).
Proof.
  apply (generate_page_success_closes_all "out.html" (Some 2)
           (example_world [[2; 0]]));
    [discriminate | discriminate | by vm_compute].
Defined.

(** X8.  [generate_page] called with the path of the template as its
    output empties the template: line 26 truncates the file before the
    loop of line 27 reads it, so the loop body never runs, the call
    succeeds, and neither the data file nor [k] is looked at. *)
Theorem generate_page_onto_template (k : option Z) (text : string) (w : world) :
  files w !! template_filename = Some text ->
  template_filename ∉ readonly w ->
  generate_page template_filename k w
  = (Ok tt, set_files (<[template_filename := EmptyString]> (files w)) w).
Proof.
  intros Ht Hro. unfold generate_page, with_open.
  erewrite do_open_read by done.
  unfold do_open at 1. simpl readonly. rewrite decide_False by done.
  simpl handles. simpl files. fold (opened template_filename w).
  unfold for_line_in, bind.
  erewrite do_readlines_ok with (text := EmptyString).
  - simpl. f_equal. apply world_ext; try done.
    apply (opened_closed template_filename w).
  - simpl. rewrite lookup_insert_ne; [apply lookup_insert_eq|].
    intros Heq.
    pose proof (is_fresh (dom (<[fresh (dom (handles w))
                                 := Handle template_filename ModeR]> (handles w))))
      as Hf.
    rewrite Heq in Hf. apply Hf. rewrite dom_insert_L.
    apply elem_of_union_l, elem_of_singleton. reflexivity.
  - simpl. apply lookup_insert_eq.
Qed.

(** An instance of X8. *)
Lemma generate_page_onto_template_witness :
  generate_page template_filename (Some 2) (example_world [[2; 0]])
  = (Ok tt,
     set_files (<[template_filename := EmptyString]>
                  (files (example_world [[2; 0]])))
       (example_world [[2; 0]])).
Proof.
  apply (generate_page_onto_template (Some 2) example_template
           (example_world [[2; 0]]));
    [reflexivity | apply not_elem_of_empty].
Defined.

(** X9.  In sampling mode with [k] in range, whatever [random.sample]
    returns, the page is the page of full mode with lines of the data
    file left out: the lines written are a sublist of the lines of the
    full page. *)
Theorem render_sample_within_full (filename : string) (k : Z)
    (template data : string) (w : world) :
  files w !! template_filename = Some template ->
  files w !! data_filename = Some data ->
  filename ∉ readonly w ->
  filename ≠ template_filename ->
  filename ≠ data_filename ->
  writes_left w = None ->
  0 <= k <= num_packages ->
  ∃ ls w',
    generate_page filename (Some k) w = (Ok tt, w') ∧
    files w' !! filename = Some (join ls) ∧
    ls `sublist_of` page_lines template data.
Proof.
  intros Ht Hd Hro Hnt Hnd Hq Hk.
  destruct (plan_sample (splitlines template) data k (entropy w) Hk)
    as (ls & Hplan & Hsub).
  exists ls,
    (World (<[filename := join ls]> (files w)) (readonly w) (handles w)
       (spend (length ls) (writes_left w))
       (drop (marker_count (splitlines template)) (entropy w))).
  split_and!; [|apply lookup_insert_eq|done].
  apply (generate_page_fits filename (Some k) template w Ht Hro Hnt Hnd
           ls None _); [|by rewrite Hq].
  by rewrite Hd.
Qed.

(** An instance of X9. *)
Lemma render_sample_within_full_witness :
  ∃ ls w',
    generate_page "out.html" (Some 2) (example_world [[2; 0]]) = (Ok tt, w') ∧
    files w' !! "out.html" = Some (join ls) ∧
    ls `sublist_of` page_lines example_template example_data.
Proof.
  apply (render_sample_within_full "out.html" 2 example_template example_data
           (example_world [[2; 0]]));
    [reflexivity | reflexivity | apply not_elem_of_empty
    | discriminate | discriminate | reflexivity | unfold num_packages; lia].
Defined.

(** X10.  With sample size 0 the page is the template without its
    marker lines; the data file must still exist. *)
Theorem render_sample_of_none (filename template data : string) (w : world) :
  files w !! template_filename = Some template ->
  files w !! data_filename = Some data ->
  filename ∉ readonly w ->
  filename ≠ template_filename ->
  filename ≠ data_filename ->
  writes_left w = None ->
  Forall (valid_sample num_packages 0) (entropy w) ->
  ∃ w',
    generate_page filename (Some 0) w = (Ok tt, w') ∧
    files w' !! filename
    = Some (join (filter (λ line, contains marker line = false)
                    (splitlines template))).
Proof.
  intros Ht Hd Hro Hnt Hnd Hq Hent.
  eexists (World _ _ _ _ _). split; [|apply lookup_insert_eq].
  apply (generate_page_fits filename (Some 0) template w Ht Hro Hnt Hnd
           _ None _); [|by rewrite Hq].
  rewrite Hd. by apply plan_sample_none.
Qed.

(** An instance of X10. *)
Lemma render_sample_of_none_witness :
  ∃ w',
    generate_page "out.html" (Some 0) (example_world [[]; []]) = (Ok tt, w') ∧
    files w' !! "out.html"
    = Some (join (filter (λ line, contains marker line = false)
                    (splitlines example_template))).
Proof.
  apply (render_sample_of_none "out.html" example_template example_data
           (example_world [[]; []]));
    [reflexivity | reflexivity | apply not_elem_of_empty
    | discriminate | discriminate | reflexivity |].
  repeat constructor.
Defined.

(** X11.  In sampling mode each marker line makes its own call of
    [random.sample]: a run takes as many draws from the random
    generator as the template has marker lines. *)
Theorem render_sample_draws_per_marker (filename : string) (k : Z)
    (template data : string) (w : world) :
  files w !! template_filename = Some template ->
  files w !! data_filename = Some data ->
  filename ∉ readonly w ->
  filename ≠ template_filename ->
  filename ≠ data_filename ->
  writes_left w = None ->
  0 <= k <= num_packages ->
  ∃ w',
    generate_page filename (Some k) w = (Ok tt, w') ∧
    entropy w' = drop (marker_count (splitlines template)) (entropy w).
Proof.
  intros Ht Hd Hro Hnt Hnd Hq Hk.
  destruct (plan_sample (splitlines template) data k (entropy w) Hk)
    as (ls & Hplan & _).
  eexists (World _ _ _ _ _). split; [|reflexivity].
  apply (generate_page_fits filename (Some k) template w Ht Hro Hnt Hnd
           ls None _); [|by rewrite Hq].
  by rewrite Hd.
Qed.

(** An instance of X11. *)
Lemma render_sample_draws_per_marker_witness :
  ∃ w',
    generate_page "out.html" (Some 1) (set_entropy [[0]; [2]; [1]] two_marker_world)
    = (Ok tt, w') ∧
    entropy w'
    = drop (marker_count (splitlines two_marker_template))
        (entropy (set_entropy [[0]; [2]; [1]] two_marker_world)).
Proof.
  apply (render_sample_draws_per_marker "out.html" 1 two_marker_template
           example_data (set_entropy [[0]; [2]; [1]] two_marker_world));
    [reflexivity | reflexivity | apply not_elem_of_empty
    | discriminate | discriminate | reflexivity | unfold num_packages; lia].
Defined.

(** X12.  On a device that does not fail, [generate_page] succeeds
    exactly when the template exists, the output can be created, and
    either no line of the template contains the marker or the data file
    exists and [k] is absent or in range. *)
Theorem generate_page_succeeds_iff (filename : string) (k : option Z)
    (w : world) :
  filename ≠ template_filename ->
  filename ≠ data_filename ->
  writes_left w = None ->
  (∃ w', generate_page filename k w = (Ok tt, w')) <->
  (∃ template,
     files w !! template_filename = Some template ∧
     (filename ∉ readonly w) ∧
     (Forall (λ line, ¬ marker_line line) (splitlines template) ∨
      (is_Some (files w !! data_filename) ∧ in_range k))).
Proof.
  intros Hnt Hnd Hq.
  destruct (files w !! template_filename) as [template|] eqn:Ht.
  2:{ rewrite generate_page_no_template by done.
      split; [by intros [? ?]|by intros (? & ? & _)]. }
  destruct (decide (filename ∈ readonly w)) as [Hro|Hro].
  { rewrite (generate_page_readonly filename k template) by done.
    split; [by intros [? ?]|by intros (? & _ & ? & _)]. }
  pose proof (plan_completes (splitlines template) (files w !! data_filename) k
                (entropy w)) as Hdone.
  destruct (plan (splitlines template) (files w !! data_filename) k (entropy w))
    as [[ls e] ent] eqn:Hplan.
  cbn [fst snd] in Hdone.
  rewrite (generate_page_fits filename k template w Ht Hro Hnt Hnd ls e ent Hplan)
    by (by rewrite Hq).
  split.
  - intros [w' Hrun]. exists template. split_and!; [done..|].
    apply Hdone. destruct e; [discriminate|done].
  - intros (template' & [= <-] & _ & Hok). apply Hdone in Hok as ->.
    by eexists.
Qed.

(** An instance of X12. *)
Lemma generate_page_succeeds_iff_witness :
  (∃ w', generate_page "out.html" (Some 2) (example_world [[2; 0]]) = (Ok tt, w'))
  <->
  (∃ template,
     files (example_world [[2; 0]]) !! template_filename = Some template ∧
     ("out.html" ∉ readonly (example_world [[2; 0]])) ∧
     (Forall (λ line, ¬ marker_line line) (splitlines template) ∨
      (is_Some (files (example_world [[2; 0]]) !! data_filename) ∧
       in_range (Some 2)))).
Proof.
  apply (generate_page_succeeds_iff "out.html" (Some 2) (example_world [[2; 0]]));
    [discriminate | discriminate | reflexivity].
Defined.

(** X13.  [generate_page] writes to its output only: whatever the
    outcome, every other file, the template and the data file among
    them, is as it was. *)
Theorem generate_page_touches_only_output (filename : string) (k : option Z)
    (w : world) (p : string) :
  filename ≠ template_filename ->
  filename ≠ data_filename ->
  p ≠ filename ->
  files (generate_page filename k w).2 !! p = files w !! p.
Proof.
  intros Hnt Hnd Hp.
  destruct (files w !! template_filename) as [template|] eqn:Ht.
  2:{ by rewrite generate_page_no_template. }
  destruct (decide (filename ∈ readonly w)) as [Hro|Hro].
  { by rewrite (generate_page_readonly filename k template). }
  destruct (plan (splitlines template) (files w !! data_filename) k (entropy w))
    as [[ls e] ent] eqn:Hplan.
  destruct (decide (fits (writes_left w) (length ls))) as [Hfits|Hfits].
  - rewrite (generate_page_fits filename k template w Ht Hro Hnt Hnd
               ls e ent Hplan Hfits).
    simpl. by rewrite lookup_insert_ne.
  - destruct (generate_page_short filename k template w Ht Hro Hnt Hnd
                ls e ent Hplan Hfits) as (w1 & -> & Hfiles & _).
    simpl. by rewrite Hfiles, lookup_insert_ne.
Qed.

(** An instance of X13. *)
Lemma generate_page_touches_only_output_witness :
  files (generate_page "out.html" None (full_disk_world 2)).2 !! data_filename
  = files (full_disk_world 2) !! data_filename.
Proof.
  apply (generate_page_touches_only_output "out.html" None (full_disk_world 2)
           data_filename); discriminate.
Defined.

(** X14.  With a data file of exactly [num_packages] lines and valid
    draws for every marker line, each marker line gives way to exactly
    [k] lines: the page has the lines of the template that are not
    marker lines, and [k] lines for each marker line. *)
Theorem render_sample_line_count (filename : string) (k : Z)
    (template data : string) (w : world) :
  files w !! template_filename = Some template ->
  files w !! data_filename = Some data ->
  filename ∉ readonly w ->
  filename ≠ template_filename ->
  filename ≠ data_filename ->
  writes_left w = None ->
  0 <= k <= num_packages ->
  Z.of_nat (length (splitlines data)) = num_packages ->
  Forall (valid_sample num_packages k) (entropy w) ->
  (marker_count (splitlines template) <= length (entropy w))%nat ->
  ∃ ls w',
    generate_page filename (Some k) w = (Ok tt, w') ∧
    files w' !! filename = Some (join ls) ∧
    Z.of_nat (length ls)
    = Z.of_nat (length (splitlines template) - marker_count (splitlines template))
      + Z.of_nat (marker_count (splitlines template)) * k.
Proof.
  intros Ht Hd Hro Hnt Hnd Hq Hk Hn Hent Hlen.
  pose proof (plan_sample_count (splitlines template) data k (entropy w)
                Hk Hn Hent Hlen) as Hcount.
  destruct (plan_sample (splitlines template) data k (entropy w) Hk)
    as (ls & Hplan & _).
  rewrite Hplan in Hcount. cbn [fst snd] in Hcount.
  exists ls,
    (World (<[filename := join ls]> (files w)) (readonly w) (handles w)
       (spend (length ls) (writes_left w))
       (drop (marker_count (splitlines template)) (entropy w))).
  split_and!; [|apply lookup_insert_eq|done].
  apply (generate_page_fits filename (Some k) template w Ht Hro Hnt Hnd
           ls None _); [|by rewrite Hq].
  by rewrite Hd.
Qed.

(** An instance of X14. *)
Lemma render_sample_line_count_witness :
  ∃ ls w',
    generate_page "out.html" (Some 2) (long_page_world [[7; 3]]) = (Ok tt, w') ∧
    files w' !! "out.html" = Some (join ls) ∧
    Z.of_nat (length ls)
    = Z.of_nat (length (splitlines example_template)
                - marker_count (splitlines example_template))
      + Z.of_nat (marker_count (splitlines example_template)) * 2.
Proof.
  apply (render_sample_line_count "out.html" 2 example_template long_data
           (long_page_world [[7; 3]])).
  - reflexivity.
  - apply lookup_insert_eq.
  - apply not_elem_of_empty.
  - discriminate.
  - discriminate.
  - reflexivity.
  - unfold num_packages. lia.
  - vm_compute. reflexivity.
  - constructor; [|constructor]. split_and!.
    + reflexivity.
    + apply (bool_decide_unpack _). vm_compute. exact I.
    + unfold num_packages. repeat constructor; lia.
  - vm_compute. lia.
Defined.

(** * Examples *)

(** The end-to-end example of the specification. *)
Example end_to_end_full :
  files (snd (generate_page "out.html" None (example_world []))) !! "out.html"
  = Some ("X" +:+ nl +:+ "A" +:+ nl +:+ "B" +:+ nl +:+ "C" +:+ nl +:+ "Y" +:+ nl).
Proof. by vm_compute. Qed.

Example end_to_end_sample :
  files (snd (generate_page "out.html" (Some 2) (example_world [[2; 0]])))
    !! "out.html"
  = Some ("X" +:+ nl +:+ "A" +:+ nl +:+ "C" +:+ nl +:+ "Y" +:+ nl).
Proof. by vm_compute. Qed.

(** Every line that contains the marker gives way to the data file. *)
Example two_markers :
  files (snd (generate_page "out.html" None two_marker_world)) !! "out.html"
  = Some (example_data +:+ "Z" +:+ nl +:+ example_data).
Proof. by vm_compute. Qed.

(** Drawn indices beyond the end of a short data file select nothing:
    two were asked for, one line comes out. *)
Example short_file_sample :
  fst (collect (sample_data 2) (example_world [[5; 0]])) = Ok ["A" +:+ nl].
Proof. by vm_compute. Qed.
